(** * The Cosmos DB object-model facade, embedded in Rocq

    The repository wraps a low-level document-database client (the class
    [_CosmosClient], here called the transport context) into the handles
    [Client], [Database], [Container] and [Item].  Two variants exist:
    [azure/cosmos/client.py] (module [Cosmos] below) and
    [prototype/client.py] (module [Prototype]).

    Every facade method is embedded as a computation in a state-and-exception
    monad.  The transport context is not part of the repository: its
    operations are the fields of the record [ClientContext], over an
    arbitrary type of remote states. *)

From Stdlib Require Import String List ZArith Bool.
Import ListNotations.
Local Open Scope string_scope.
Set Warnings "-register-all".

(** ** Python values *)

(** The JSON-like values that travel between the facade and the transport
    context.  A dictionary keeps its insertion order, as Python's does. *)
Inductive pyval : Type :=
| PNone
| PBool (b : bool)
| PInt (n : Z)
| PStr (s : string)
| PList (l : list pyval)
| PDict (d : list (string * pyval)).

Definition pydict : Type := list (string * pyval).

(** The exceptions that the embedded code can raise or let through. *)
Inductive exn : Type :=
| HTTPFailure (status_code : Z)
| KeyError (key : string)
| TypeError
| ValueError
| StopIteration
| RuntimeError.

Module Py.

(** [value is not None] *)
Definition is_not_None (v : pyval) : bool :=
  match v with
  | PNone => false
  | _ => true
  end.

(** Truth value of an object, as used by [or], [and] and [if]. *)
Definition truthy (v : pyval) : bool :=
  match v with
  | PNone => false
  | PBool b => b
  | PInt n => negb (n =? 0)%Z
  | PStr s => negb (s =? "")
  | PList l => match l with [] => false | _ => true end
  | PDict d => match d with [] => false | _ => true end
  end.

(** [a or b] *)
Definition or_ (a b : pyval) : pyval := if truthy a then a else b.

Fixpoint lookup (k : string) (d : pydict) : option pyval :=
  match d with
  | [] => None
  | (k', v) :: rest => if k' =? k then Some v else lookup k rest
  end.

(** [d.get(k, default)] *)
Definition get (d : pydict) (k : string) (default : pyval) : pyval :=
  match lookup k d with
  | Some v => v
  | None => default
  end.

(** [d[k]] on a dictionary *)
Definition getitem (d : pydict) (k : string) : exn + pyval :=
  match lookup k d with
  | Some v => inr v
  | None => inl (KeyError k)
  end.

(** [d[k] = v]: an existing key keeps its position *)
Fixpoint setitem (d : pydict) (k : string) (v : pyval) : pydict :=
  match d with
  | [] => [(k, v)]
  | (k', v') :: rest =>
      if k' =? k then (k, v) :: rest else (k', v') :: setitem rest k v
  end.

(** [d.update(other)] *)
Definition update (d other : pydict) : pydict :=
  fold_left (fun acc kv => setitem acc (fst kv) (snd kv)) other d.

(** [{key: value for key, value in d.items() if value is not None}] *)
Definition drop_None (d : pydict) : pydict :=
  filter (fun kv => is_not_None (snd kv)) d.

(** The two builtins of the Python runtime that the facade calls and that
    are not spelled out here: parsing a string as an integer (inside
    [int]) and the text of a non-string object (inside an f-string). *)
Record Runtime : Type := {
  int_of_str : string -> option Z;
  format_obj : pyval -> string
}.

(** [int(v)] *)
Definition int (rt : Runtime) (v : pyval) : exn + pyval :=
  match v with
  | PNone => inl TypeError
  | PBool b => inr (PInt (if b then 1 else 0))
  | PInt n => inr (PInt n)
  | PStr s =>
      match int_of_str rt s with
      | Some n => inr (PInt n)
      | None => inl ValueError
      end
  | PList _ => inl TypeError
  | PDict _ => inl TypeError
  end.

(** [f"{v}"] *)
Definition fmt (rt : Runtime) (v : pyval) : string :=
  match v with
  | PStr s => s
  | _ => format_obj rt v
  end.

End Py.

(** ** The state-and-exception monad *)

Definition M (S A : Type) : Type := S -> (exn + A) * S.

Definition ret {S A} (a : A) : M S A := fun s => (inr a, s).

Definition raise {S A} (e : exn) : M S A := fun s => (inl e, s).

Definition bind {S A B} (m : M S A) (k : A -> M S B) : M S B :=
  fun s =>
    match m s with
    | (inr a, s') => k a s'
    | (inl e, s') => (inl e, s')
    end.

(** A pure step that may raise, such as a subscript. *)
Definition lift_result {S A} (r : exn + A) : M S A := fun s => (r, s).

(** [try: body  except HTTPFailure as e: handler(e.status_code)]: only an
    [HTTPFailure] is caught, every other exception leaves the statement. *)
Definition try_except_HTTPFailure {S A}
    (body : M S A) (handler : Z -> M S A) : M S A :=
  fun s =>
    match body s with
    | (inl (HTTPFailure status_code), s') => handler status_code s'
    | other => other
    end.

(** [try: body  except StopIteration: handler] *)
Definition try_except_StopIteration {S A}
    (body : M S A) (handler : M S A) : M S A :=
  fun s =>
    match body s with
    | (inl StopIteration, s') => handler s'
    | other => other
    end.

Declare Scope py_scope.
Delimit Scope py_scope with py.
Notation "x <- m ;; k" := (bind m (fun x => k))
  (at level 61, m at next level, right associativity) : py_scope.
Notation "m ;;; k" := (bind m (fun _ => k))
  (at level 61, right associativity) : py_scope.
Local Open Scope py_scope.

Fixpoint mapM {S A B} (f : A -> M S B) (l : list A) : M S (list B) :=
  match l with
  | [] => ret []
  | a :: rest => b <- f a ;; bs <- mapM f rest ;; ret (b :: bs)
  end.

(** ** Generators

    Every generator function of the facade has the shape
    [yield from [f(x) for x in transport_call(...)]]: nothing runs when the
    function is called; the first [next] runs the whole body and builds the
    list; the elements are then handed out one by one. *)
Inductive generator (S A : Type) : Type :=
| GenCreated (body : M S (list A))
| GenSuspended (pending : list A)
| GenClosed.
Arguments GenCreated {S A} body.
Arguments GenSuspended {S A} pending.
Arguments GenClosed {S A}.

(** [next(g)]; the generator object is threaded explicitly.  A
    [StopIteration] escaping the body surfaces as [RuntimeError]. *)
Definition next {S A} (g : generator S A) : S -> (exn + A) * generator S A * S :=
  fun s =>
    match g with
    | GenCreated body =>
        match body s with
        | (inr (a :: rest), s') => (inr a, GenSuspended rest, s')
        | (inr [], s') => (inl StopIteration, GenClosed, s')
        | (inl StopIteration, s') => (inl RuntimeError, GenClosed, s')
        | (inl e, s') => (inl e, GenClosed, s')
        end
    | GenSuspended (a :: rest) => (inr a, GenSuspended rest, s)
    | GenSuspended [] => (inl StopIteration, GenClosed, s)
    | GenClosed => (inl StopIteration, GenClosed, s)
    end.

(** [list(g)]: runs the generator to exhaustion. *)
Definition list_of {S A} (g : generator S A) : M S (list A) :=
  match g with
  | GenCreated body =>
      fun s =>
        match body s with
        | (inl StopIteration, s') => (inl RuntimeError, s')
        | other => other
        end
  | GenSuspended pending => ret pending
  | GenClosed => ret []
  end.

(** ** The transport context

    The operations of [_CosmosClient] that the facade calls.  A properties
    or document result is a dictionary, a feed is a sequence of
    dictionaries.  [last_response_headers] is an attribute of the context,
    read from its current state. *)
Record ClientContext (W : Type) : Type := {
  CreateDatabase : pydict -> M W pydict;
  ReadDatabase : string -> M W pydict;
  ReadDatabases : M W (list pydict);
  QueryDatabases : pyval -> M W (list pydict);
  DeleteDatabase : string -> M W unit;
  CreateContainer : string -> pydict -> pyval -> M W pydict;
  ReadContainer : string -> M W pydict;
  ReadContainers : string -> M W (list pydict);
  ReplaceContainer : string -> pydict -> M W pydict;
  DeleteContainer : string -> M W pydict;
  ReadItem : string -> M W pydict;
  ReadItems : string -> pyval -> M W (list pydict);
  ReplaceItem : pyval -> pydict -> M W pydict;
  DeleteItem : pyval -> M W unit;
  last_response_headers : W -> pydict
}.
Arguments CreateDatabase {W}.
Arguments ReadDatabase {W}.
Arguments ReadDatabases {W}.
Arguments QueryDatabases {W}.
Arguments DeleteDatabase {W}.
Arguments CreateContainer {W}.
Arguments ReadContainer {W}.
Arguments ReadContainers {W}.
Arguments ReplaceContainer {W}.
Arguments DeleteContainer {W}.
Arguments ReadItem {W}.
Arguments ReadItems {W}.
Arguments ReplaceItem {W}.
Arguments DeleteItem {W}.
Arguments last_response_headers {W}.

(** ** [azure/cosmos/client.py] *)

Module Cosmos.
Section Facade.

Variable rt : Py.Runtime.
Variable W : Type.
Variable client_context : ClientContext W.

(** *** class [Database], class [DatabaseResponse] *)

Record Database : Type := {
  database_id : pyval;
  database_link : string
}.

(** [Database.__init__(client_context, id)] *)
Definition Database_init (id : pyval) : Database :=
  {| database_id := id;
     database_link := "/dbs/" ++ Py.fmt rt id |}.

Record DatabaseResponse : Type := {
  database_of : Database;
  database_properties : pydict
}.

(** [DatabaseResponse.__init__(client_context, id, properties)] *)
Definition DatabaseResponse_init (id : pyval) (properties : pydict)
  : DatabaseResponse :=
  {| database_of := Database_init id;
     database_properties := properties |}.

(** *** class [Client] *)

Definition get_database (id : string) : M W DatabaseResponse :=
  properties <- ReadDatabase client_context ("dbs/" ++ id) ;;
  ret (DatabaseResponse_init (PStr id) properties).

(** The [try] block returns from the function when it succeeds; the
    handler either re-raises or falls out of the [try] statement, to the
    final [return self.get_database(id)]. *)
Definition create_database (id : string) (fail_if_exists : bool)
  : M W DatabaseResponse :=
  returned <-
    try_except_HTTPFailure
      (result <- CreateDatabase client_context [("id", PStr id)] ;;
       result_id <- lift_result (Py.getitem result "id") ;;
       ret (Some (DatabaseResponse_init result_id result)))
      (fun status_code =>
         if fail_if_exists && (status_code =? 409)%Z
         then raise (HTTPFailure status_code)
         else ret None) ;;
  match returned with
  | Some database => ret database
  | None => get_database id
  end.

Definition get_database_properties (id : string) : M W pydict :=
  ReadDatabase client_context id.

Definition list_databases (query : pyval) : generator W DatabaseResponse :=
  GenCreated
    (if Py.truthy query
     then
       feed <- QueryDatabases client_context query ;;
       mapM (fun properties =>
               id <- lift_result (Py.getitem properties "id") ;;
               ret (DatabaseResponse_init id properties)) feed
     else
       feed <- ReadDatabases client_context ;;
       mapM (fun properties =>
               id <- lift_result (Py.getitem properties "id") ;;
               ret (DatabaseResponse_init id properties)) feed).

Definition delete_database (id : string) : M W unit :=
  DeleteDatabase client_context ("dbs/" ++ id).

(** *** class [Container], class [ContainerResponse] *)

Record Container : Type := {
  session_token : pyval;
  container_id : pyval;
  collection_link : string
}.

(** A [Union[Database, str]] argument. *)
Inductive database_or_id : Type :=
| ADatabase (database : Database)
| ADatabaseId (id : string).

(** [getattr(database, "database_link", f"dbs/{database}")] *)
Definition database_link_of (database : database_or_id) : string :=
  match database with
  | ADatabase d => database_link d
  | ADatabaseId s => "dbs/" ++ s
  end.

(** [Container.__init__(client_context, database, id)] *)
Definition Container_init (database : database_or_id) (id : pyval)
  : Container :=
  {| session_token := PNone;
     container_id := id;
     collection_link :=
       database_link_of database ++ "/colls/" ++ Py.fmt rt id |}.

Record ContainerResponse : Type := {
  container_of : Container;
  container_properties : pydict
}.

Definition ContainerResponse_init (database : database_or_id) (id : pyval)
    (properties : pydict) : ContainerResponse :=
  {| container_of := Container_init database id;
     container_properties := properties |}.

(** *** Container management on [Database] *)

(** A [Union[str, Container]] argument. *)
Inductive container_or_id : Type :=
| AContainer (container : Container)
| AContainerId (id : string).

Definition create_container (self : Database) (id : string)
    (options : pyval) (kwargs : pydict) : M W ContainerResponse :=
  let definition := Py.update [("id", PStr id)] kwargs in
  data <- CreateContainer client_context (database_link self)
            definition options ;;
  data_id <- lift_result (Py.getitem data "id") ;;
  ret (ContainerResponse_init (ADatabase self) data_id data).

Definition delete_container (self : Database) (container : container_or_id)
  : M W unit :=
  let collection_link :=
    match container with
    | AContainer c => collection_link c
    | AContainerId s => database_link self ++ "/colls/" ++ s
    end in
  DeleteContainer client_context collection_link ;;;
  ret tt.

Definition get_container (self : Database) (container_or_id : container_or_id)
  : M W ContainerResponse :=
  let collection_link :=
    match container_or_id with
    | AContainer c => collection_link c
    | AContainerId s => database_link self ++ "/colls/" ++ s
    end in
  container <- ReadContainer client_context collection_link ;;
  id <- lift_result (Py.getitem container "id") ;;
  ret (ContainerResponse_init (ADatabase self) id container).

(** Both branches of [if query:] read the same feed. *)
Definition list_containers (self : Database) (query : pyval)
  : generator W ContainerResponse :=
  GenCreated
    (if Py.truthy query
     then
       feed <- ReadContainers client_context (database_link self) ;;
       mapM (fun container =>
               id <- lift_result (Py.getitem container "id") ;;
               ret (ContainerResponse_init (ADatabase self) id container))
            feed
     else
       feed <- ReadContainers client_context (database_link self) ;;
       mapM (fun container =>
               id <- lift_result (Py.getitem container "id") ;;
               ret (ContainerResponse_init (ADatabase self) id container))
            feed).

(** The dictionary display is evaluated entry by entry, so
    [int(default_ttl)] runs before the comprehension filters anything. *)
Definition set_container_properties (self : Database)
    (container : container_or_id)
    (partition_key indexing_policy default_ttl conflict_resolution_policy
       : pyval)
  : M W unit :=
  let container_id :=
    match container with
    | AContainer c => container_id c
    | AContainerId s => PStr s
    end in
  ttl <- lift_result (Py.int rt default_ttl) ;;
  let parameters :=
    Py.drop_None
      [("id", container_id);
       ("partitionKey", partition_key);
       ("indexingPolicy", indexing_policy);
       ("defaultTtl", ttl);
       ("conflictResolutionPolicy", conflict_resolution_policy)] in
  let collection_link :=
    database_link self ++ "/colls/" ++ Py.fmt rt container_id in
  ReplaceContainer client_context collection_link parameters ;;;
  ret tt.

Definition get_container_properties (self : Database)
    (container : container_or_id) : M W pydict :=
  let collection_link :=
    match container with
    | AContainer c => collection_link c
    | AContainerId s => database_link self ++ "/cols/" ++ s
    end in
  ReadContainer client_context collection_link.

(** *** class [Item] *)

Record Item : Type := {
  response_headers : pydict;
  item_fields : pydict
}.

(** [Item.__init__(headers, data)] *)
Definition Item_init (headers data : pydict) : Item :=
  {| response_headers := headers;
     item_fields := Py.update [] data |}.

(** A [Union[Item, str]] argument. *)
Inductive item_or_link : Type :=
| AnItem (item : Item)
| ALink (link : string).

(** *** Item operations on [Container]

    The container object is mutable: its methods run over the pair of
    [self] and the state of the transport context. *)

Definition CM (A : Type) : Type := M (Container * W) A.

(** A call into the transport context leaves [self] alone. *)
Definition call {A} (m : M W A) : CM A :=
  fun s =>
    match m (snd s) with
    | (r, w') => (r, (fst s, w'))
    end.

Definition read_self : CM Container := fun s => (inr (fst s), s).

Definition read_last_response_headers : CM pydict :=
  fun s => (inr (last_response_headers client_context (snd s)), s).

(** [self.session_token = v] *)
Definition assign_session_token (v : pyval) : CM unit :=
  fun s =>
    (inr tt,
     ({| session_token := v;
         container_id := container_id (fst s);
         collection_link := collection_link (fst s) |}, snd s)).

Definition _document_link (item_or_link : item_or_link) : exn + pyval :=
  match item_or_link with
  | ALink link => inr (PStr link)
  | AnItem item => Py.getitem (item_fields item) "_self"
  end.

Definition get_item (id : string) : CM Item :=
  self <- read_self ;;
  let doc_link := collection_link self ++ "/docs/" ++ id in
  result <- call (ReadItem client_context doc_link) ;;
  headers <- read_last_response_headers ;;
  self <- read_self ;;
  assign_session_token
    (Py.get headers "x-ms-session-token" (session_token self)) ;;;
  ret (Item_init headers result).

Definition list_items (options : pyval) : generator (Container * W) Item :=
  GenCreated
    (let options := Py.or_ options (PDict []) in
     self <- read_self ;;
     items <- call (ReadItems client_context (collection_link self)
                      options) ;;
     headers <- read_last_response_headers ;;
     ret (map (fun item => Item_init headers item) items)).

Definition replace_item (item : item_or_link) (body : pydict) : CM Item :=
  item_link <- lift_result (_document_link item) ;;
  data <- call (ReplaceItem client_context item_link body) ;;
  headers <- read_last_response_headers ;;
  ret (Item_init headers data).

Definition delete_item (item : item_or_link) : CM unit :=
  document_link <- lift_result (_document_link item) ;;
  call (DeleteItem client_context document_link).

End Facade.
End Cosmos.

(** ** [prototype/client.py] *)

Module Prototype.
Section Facade.

Variable rt : Py.Runtime.
Variable W : Type.
Variable _context : ClientContext W.

(** *** class [Database]

    The back-reference to the client carries no data of its own: its
    only attribute is the shared transport context. *)
Record Database : Type := {
  database_id : pyval;
  database_link : string
}.

(** [Database.__init__(client, id)] *)
Definition Database_init (id : pyval) : Database :=
  {| database_id := id;
     database_link := "/dbs/" ++ Py.fmt rt id |}.

(** *** class [Client] *)

Definition get_database (id : string) : M W Database :=
  ret (Database_init (PStr id)).

Definition create_database (id : string) (fail_if_exists : bool)
  : M W Database :=
  returned <-
    try_except_HTTPFailure
      (result <- CreateDatabase _context [("id", PStr id)] ;;
       result_id <- lift_result (Py.getitem result "id") ;;
       ret (Some (Database_init result_id)))
      (fun status_code =>
         if fail_if_exists && (status_code =? 409)%Z
         then raise (HTTPFailure status_code)
         else ret None) ;;
  match returned with
  | Some database => ret database
  | None => get_database id
  end.

Definition list_databases : generator W Database :=
  GenCreated
    (feed <- ReadDatabases _context ;;
     mapM (fun database =>
             id <- lift_result (Py.getitem database "id") ;;
             ret (Database_init id)) feed).

Definition delete_database (id : string) : M W unit :=
  DeleteDatabase _context ("dbs/" ++ id).

(** *** class [Container] *)

Record Container : Type := {
  container_database : Database;
  container_id : pyval;
  collection_link : string
}.

(** [Container.__init__(database, id)] *)
Definition Container_init (database : Database) (id : pyval) : Container :=
  {| container_database := database;
     container_id := id;
     collection_link :=
       database_link database ++ "/colls/" ++ Py.fmt rt id |}.

(** *** class [ContainersManagementMixin], mixed into [Database] *)

(** The call names no [options]; the transport context takes [None]. *)
Definition create_container (self : Database) (id : string)
    (kwargs : pydict) : M W Container :=
  let definition := Py.update [("id", PStr id)] kwargs in
  data <- CreateContainer _context (database_link self) definition PNone ;;
  data_id <- lift_result (Py.getitem data "id") ;;
  ret (Container_init self data_id).

(** The [query] argument is accepted and not used. *)
Definition list_containers (self : Database) (query : pyval)
  : generator W Container :=
  GenCreated
    (feed <- ReadContainers _context (database_link self) ;;
     mapM (fun container =>
             id <- lift_result (Py.getitem container "id") ;;
             ret (Container_init self id)) feed).

Definition get_container (self : Database) (id : string) : M W Container :=
  let containers :=
    list_containers self
      (PDict
         [("query",
           PStr "SELECT * FROM root r WHERE r.id = @container");
          ("parameters",
           PList [PDict [("name", PStr "@container");
                         ("value", PStr id)]])]) in
  try_except_StopIteration
    (fun w =>
       match next containers w with
       | (r, _, w') => (r, w')
       end)
    (raise ValueError).

(** *** class [Item] *)

Record Item : Type := {
  item_container : Container;
  item_fields : pydict
}.

(** [Item.__init__(container, data)] *)
Definition Item_init (container : Container) (data : pydict) : Item :=
  {| item_container := container;
     item_fields := Py.update [] data |}.

(** A [Union[Item, str]] argument. *)
Inductive item_or_link : Type :=
| AnItem (item : Item)
| ALink (link : string).

(** *** Item operations and properties on [Container] *)

(** As in the other variant, [int(default_ttl)] runs while the dictionary
    display is built, before anything is filtered. *)
Definition set_container_properties (self : Container)
    (id partition_key indexing_policy default_ttl
       conflict_resolution_policy : pyval)
  : M W unit :=
  ttl <- lift_result (Py.int rt default_ttl) ;;
  let parameters :=
    Py.drop_None
      [("id", Py.or_ id (container_id self));
       ("partitionKey", partition_key);
       ("indexingPolicy", indexing_policy);
       ("defaultTtl", ttl);
       ("conflictResolutionPolicy", conflict_resolution_policy)] in
  ReplaceContainer _context (collection_link self) parameters ;;;
  ret tt.

(** [type(item_or_link) is "str"]: the left operand is a type object, the
    right one a string object, and [is] compares identities; the two are
    never the same object. *)
Definition type_is_str_literal (item_or_link : item_or_link) : bool :=
  false.

(** [item_or_link["_self"]]: a string takes no string subscript. *)
Definition subscript (item_or_link : item_or_link) (key : string)
  : exn + pyval :=
  match item_or_link with
  | AnItem item => Py.getitem (item_fields item) key
  | ALink _ => inl TypeError
  end.

Definition _document_link (item_or_link : item_or_link) : exn + pyval :=
  if type_is_str_literal item_or_link
  then
    match item_or_link with
    | ALink link => inr (PStr link)
    | AnItem item => inr (PDict (item_fields item))
    end
  else subscript item_or_link "_self".

Definition get_item (self : Container) (id : string) : M W Item :=
  let doc_link := collection_link self ++ "/docs/" ++ id in
  result <- ReadItem _context doc_link ;;
  ret (Item_init self result).

Definition list_items (self : Container) (options : pyval)
  : generator W Item :=
  GenCreated
    (let options := Py.or_ options (PDict []) in
     items <- ReadItems _context (collection_link self) options ;;
     ret (map (fun item => Item_init self item) items)).

Definition replace_item (self : Container) (item : item_or_link)
    (body : pydict) : M W Item :=
  item_link <- lift_result (_document_link item) ;;
  data <- ReplaceItem _context item_link body ;;
  ret (Item_init self data).

Definition delete_item (self : Container) (item : item_or_link)
  : M W unit :=
  document_link <- lift_result (_document_link item) ;;
  DeleteItem _context document_link.

End Facade.
End Prototype.

(** ** A scripted transport context

    A test double for the external client: it answers the successive calls
    with the replies of a script, whatever the call, records every call with
    its arguments, and exposes the headers that came with the last reply.
    Any finite behaviour of the remote service is a script. *)

Module Scripted.

Inductive call : Type :=
| CallCreateDatabase (database : pydict)
| CallReadDatabase (database_link : string)
| CallReadDatabases
| CallQueryDatabases (query : pyval)
| CallDeleteDatabase (database_link : string)
| CallCreateContainer (database_link : string) (collection : pydict)
    (options : pyval)
| CallReadContainer (collection_link : string)
| CallReadContainers (database_link : string)
| CallReplaceContainer (collection_link : string) (collection : pydict)
| CallDeleteContainer (collection_link : string)
| CallReadItem (document_link : string)
| CallReadItems (collection_link : string) (feed_options : pyval)
| CallReplaceItem (document_link : pyval) (new_document : pydict)
| CallDeleteItem (document_link : pyval).

Inductive reply : Type :=
| Fails (e : exn)
| Returns (properties : pydict)
| Yields (feed : list pydict).

Record world : Type := {
  script : list (reply * pydict);
  headers : pydict;
  calls : list call
}.

(** Consumes one reply of the script.  A script that has run out, or a
    reply of the wrong shape, is a server error. *)
Definition answer {A} (c : call) (decode : reply -> option A) : M world A :=
  fun w =>
    match script w with
    | [] =>
        (inl (HTTPFailure 500),
         {| script := []; headers := headers w; calls := calls w ++ [c] |})
    | (r, h) :: rest =>
        let w' := {| script := rest; headers := h;
                     calls := calls w ++ [c] |} in
        match r with
        | Fails e => (inl e, w')
        | _ =>
            match decode r with
            | Some a => (inr a, w')
            | None => (inl (HTTPFailure 500), w')
            end
        end
    end.

Definition properties_of (r : reply) : option pydict :=
  match r with Returns d => Some d | _ => None end.

Definition feed_of (r : reply) : option (list pydict) :=
  match r with Yields l => Some l | _ => None end.

Definition nothing_of (r : reply) : option unit :=
  match r with Returns _ => Some tt | _ => None end.

Definition context : ClientContext world :=
  {| CreateDatabase := fun d => answer (CallCreateDatabase d) properties_of;
     ReadDatabase := fun l => answer (CallReadDatabase l) properties_of;
     ReadDatabases := answer CallReadDatabases feed_of;
     QueryDatabases := fun q => answer (CallQueryDatabases q) feed_of;
     DeleteDatabase := fun l => answer (CallDeleteDatabase l) nothing_of;
     CreateContainer :=
       fun l d o => answer (CallCreateContainer l d o) properties_of;
     ReadContainer := fun l => answer (CallReadContainer l) properties_of;
     ReadContainers := fun l => answer (CallReadContainers l) feed_of;
     ReplaceContainer :=
       fun l d => answer (CallReplaceContainer l d) properties_of;
     DeleteContainer :=
       fun l => answer (CallDeleteContainer l) properties_of;
     ReadItem := fun l => answer (CallReadItem l) properties_of;
     ReadItems := fun l o => answer (CallReadItems l o) feed_of;
     ReplaceItem := fun l d => answer (CallReplaceItem l d) properties_of;
     DeleteItem := fun l => answer (CallDeleteItem l) nothing_of;
     last_response_headers := headers |}.

(** A fresh context that will answer with the given script. *)
Definition start (replies : list (reply * pydict)) : world :=
  {| script := replies; headers := []; calls := [] |}.

(** A runtime whose [int] reads no string and whose f-strings print every
    non-string object as [?]; the examples use strings and integers. *)
Definition runtime : Py.Runtime :=
  {| Py.int_of_str := fun _ => None;
     Py.format_obj := fun _ => "?" |}.

End Scripted.

(** ** Example scripts *)

Module Examples.

Import Scripted.

Definition db_properties : pydict :=
  [("id", PStr "db"); ("_rid", PStr "r1")].

(** The create is refused with a conflict, the read then finds the
    database. *)
Definition conflict_then_found : world :=
  start [(Fails (HTTPFailure 409), []); (Returns db_properties, [])].

(** The create fails with a server error, the read that follows fails as
    a missing database. *)
Definition unavailable_then_missing : world :=
  start [(Fails (HTTPFailure 503), []); (Fails (HTTPFailure 404), [])].

(** The create succeeds, and so does the read. *)
Definition created_then_found : world :=
  start [(Returns db_properties, []); (Returns db_properties, [])].

(** The delete finds no database. *)
Definition nothing_to_delete : world :=
  start [(Fails (HTTPFailure 404), [])].

(** A read answered without a session token among the headers. *)
Definition read_without_token : world :=
  start [(Returns [("id", PStr "x")], [("etag", PStr "e1")])].

(** A container that has seen the session token [0:7]. *)
Definition container_with_token : Cosmos.Container :=
  {| Cosmos.session_token := PStr "0:7";
     Cosmos.container_id := PStr "c";
     Cosmos.collection_link := "/dbs/d/colls/c" |}.

End Examples.

(** ** The transport context, remaining operations

    The operations of [_CosmosClient] behind the item queries, the item
    writes by collection link and the user management of the facade. *)
Record ClientContextMore (W : Type) : Type := {
  QueryItems : string -> string -> pyval -> pyval -> M W (list pydict);
  UpsertItem : string -> pydict -> M W pydict;
  CreateItem : string -> pydict -> M W pydict;
  CreateUser : string -> pyval -> pyval -> M W pydict;
  ReadUser : pyval -> M W pydict;
  ReadUsers : pyval -> M W (list pydict);
  DeleteUser : pyval -> M W unit
}.
Arguments QueryItems {W}.
Arguments UpsertItem {W}.
Arguments CreateItem {W}.
Arguments CreateUser {W}.
Arguments ReadUser {W}.
Arguments ReadUsers {W}.
Arguments DeleteUser {W}.

(** ** [azure/cosmos/client.py], remaining methods *)

Module CosmosMore.
Section Facade.

Variable W : Type.
Variable client_context : ClientContext W.
Variable more : ClientContextMore W.

(** *** Item queries and writes on [Container] *)

Definition query_items (query : string) (options partition_key : pyval)
  : generator (Cosmos.Container * W) Cosmos.Item :=
  GenCreated
    (self <- Cosmos.read_self W ;;
     items <- Cosmos.call W
                (QueryItems more (Cosmos.collection_link self) query options
                   partition_key) ;;
     headers <- Cosmos.read_last_response_headers W client_context ;;
     ret (map (fun item => Cosmos.Item_init headers item) items)).

Definition upsert_item (body : pydict) : Cosmos.CM W Cosmos.Item :=
  self <- Cosmos.read_self W ;;
  result <- Cosmos.call W
              (UpsertItem more (Cosmos.collection_link self) body) ;;
  headers <- Cosmos.read_last_response_headers W client_context ;;
  ret (Cosmos.Item_init headers result).

Definition create_item (body : pydict) : Cosmos.CM W Cosmos.Item :=
  self <- Cosmos.read_self W ;;
  result <- Cosmos.call W
              (CreateItem more (Cosmos.collection_link self) body) ;;
  headers <- Cosmos.read_last_response_headers W client_context ;;
  ret (Cosmos.Item_init headers result).

(** *** class [User] and the user management on [Database] *)

(** An instance of [class User: pass]: the attributes set on it, and the
    text it has inside an f-string. *)
Record User : Type := {
  user_attributes : pydict;
  user_text : string
}.

(** [User(user)]: the class defines no [__init__], so a call with an
    argument is refused. *)
Definition User_call (user : pydict) : exn + User := inl TypeError.

(** What is handed to [get_user_link]: an id, a user, or, from
    [delete_user], the builtin function [id]. *)
Inductive user_argument : Type :=
| AUserId (id : string)
| AUser (user : User)
| ABuiltinFunction (name : string).

(** [f"{id_or_user}"] *)
Definition user_argument_text (id_or_user : user_argument) : string :=
  match id_or_user with
  | AUserId id => id
  | AUser user => user_text user
  | ABuiltinFunction name => "<built-in function " ++ name ++ ">"
  end.

(** [getattr(id_or_user, "user_link", default)] *)
Definition getattr_user_link (id_or_user : user_argument) (default : pyval)
  : pyval :=
  match id_or_user with
  | AUser user => Py.get (user_attributes user) "user_link" default
  | AUserId _ => default
  | ABuiltinFunction _ => default
  end.

Definition get_user_link (self : Cosmos.Database)
    (id_or_user : user_argument) : pyval :=
  getattr_user_link id_or_user
    (PStr (Cosmos.database_link self ++ "/users/"
             ++ user_argument_text id_or_user)).

Definition create_user (self : Cosmos.Database) (user options : pyval)
  : M W pydict :=
  CreateUser more (Cosmos.database_link self) user options.

Definition get_user (self : Cosmos.Database) (id : user_argument)
  : M W pydict :=
  ReadUser more (get_user_link self id).

(** [ReadUsers] receives the query where the transport context expects
    its first argument. *)
Definition list_users (self : Cosmos.Database) (query : pyval)
  : generator W User :=
  GenCreated
    (feed <- ReadUsers more query ;;
     mapM (fun user => lift_result (User_call user)) feed).

(** The body names [id], not its parameter [user]: with no local of that
    name, it is the builtin function. *)
Definition delete_user (self : Cosmos.Database) (user : user_argument)
  : M W unit :=
  DeleteUser more (get_user_link self (ABuiltinFunction "id")).

End Facade.
End CosmosMore.

(** ** [prototype/client.py], remaining methods *)

Module PrototypeMore.
Section Facade.

Variable rt : Py.Runtime.
Variable W : Type.
Variable _context : ClientContext W.
Variable more : ClientContextMore W.

Definition query_databases (query : string)
  : generator W Prototype.Database :=
  GenCreated
    (feed <- QueryDatabases _context (PStr query) ;;
     mapM (fun database =>
             id <- lift_result (Py.getitem database "id") ;;
             ret (Prototype.Database_init rt id)) feed).

(** The call names neither [options] nor [partition_key]; the transport
    context takes [None] for both. *)
Definition query_items (self : Prototype.Container) (query : string)
  : generator W Prototype.Item :=
  GenCreated
    (items <- QueryItems more (Prototype.collection_link self) query
                PNone PNone ;;
     ret (map (fun item => Prototype.Item_init self item) items)).

Definition upsert_item (self : Prototype.Container) (body : pydict)
  : M W Prototype.Item :=
  result <- UpsertItem more (Prototype.collection_link self) body ;;
  ret (Prototype.Item_init self result).

Definition create_item (self : Prototype.Container) (body : pydict)
  : M W Prototype.Item :=
  result <- CreateItem more (Prototype.collection_link self) body ;;
  ret (Prototype.Item_init self result).

End Facade.
End PrototypeMore.

(** ** The scripted transport context, remaining operations

    The same test double over the same script: the operations of
    [Scripted.context] act on the [base] part, the remaining ones take
    their replies from the same script and are recorded apart. *)

Module ScriptedMore.

Inductive call : Type :=
| CallQueryItems (link query : string) (options partition_key : pyval)
| CallUpsertItem (link : string) (document : pydict)
| CallCreateItem (link : string) (document : pydict)
| CallCreateUser (database_link : string) (user options : pyval)
| CallReadUser (user_link : pyval)
| CallReadUsers (query : pyval)
| CallDeleteUser (user_link : pyval).

Record world : Type := {
  base : Scripted.world;
  more_calls : list call
}.

Definition on_base {A} (m : M Scripted.world A) : M world A :=
  fun w =>
    match m (base w) with
    | (r, b) => (r, {| base := b; more_calls := more_calls w |})
    end.

Definition answer {A} (c : call) (decode : Scripted.reply -> option A)
  : M world A :=
  fun w =>
    let recorded := (more_calls w ++ [c])%list in
    match Scripted.script (base w) with
    | [] =>
        (inl (HTTPFailure 500),
         {| base := base w; more_calls := recorded |})
    | (r, h) :: rest =>
        let w' :=
          {| base := {| Scripted.script := rest;
                        Scripted.headers := h;
                        Scripted.calls := Scripted.calls (base w) |};
             more_calls := recorded |} in
        match r with
        | Scripted.Fails e => (inl e, w')
        | _ =>
            match decode r with
            | Some a => (inr a, w')
            | None => (inl (HTTPFailure 500), w')
            end
        end
    end.

Definition context : ClientContext world :=
  {| CreateDatabase := fun d => on_base (CreateDatabase Scripted.context d);
     ReadDatabase := fun l => on_base (ReadDatabase Scripted.context l);
     ReadDatabases := on_base (ReadDatabases Scripted.context);
     QueryDatabases := fun q => on_base (QueryDatabases Scripted.context q);
     DeleteDatabase := fun l => on_base (DeleteDatabase Scripted.context l);
     CreateContainer :=
       fun l d o => on_base (CreateContainer Scripted.context l d o);
     ReadContainer := fun l => on_base (ReadContainer Scripted.context l);
     ReadContainers := fun l => on_base (ReadContainers Scripted.context l);
     ReplaceContainer :=
       fun l d => on_base (ReplaceContainer Scripted.context l d);
     DeleteContainer :=
       fun l => on_base (DeleteContainer Scripted.context l);
     ReadItem := fun l => on_base (ReadItem Scripted.context l);
     ReadItems := fun l o => on_base (ReadItems Scripted.context l o);
     ReplaceItem := fun l d => on_base (ReplaceItem Scripted.context l d);
     DeleteItem := fun l => on_base (DeleteItem Scripted.context l);
     last_response_headers := fun w => Scripted.headers (base w) |}.

Definition more : ClientContextMore world :=
  {| QueryItems :=
       fun l q o k => answer (CallQueryItems l q o k) Scripted.feed_of;
     UpsertItem :=
       fun l d => answer (CallUpsertItem l d) Scripted.properties_of;
     CreateItem :=
       fun l d => answer (CallCreateItem l d) Scripted.properties_of;
     CreateUser :=
       fun l u o => answer (CallCreateUser l u o) Scripted.properties_of;
     ReadUser := fun l => answer (CallReadUser l) Scripted.properties_of;
     ReadUsers := fun q => answer (CallReadUsers q) Scripted.feed_of;
     DeleteUser := fun l => answer (CallDeleteUser l) Scripted.nothing_of |}.

Definition start (replies : list (Scripted.reply * pydict)) : world :=
  {| base := Scripted.start replies; more_calls := [] |}.

End ScriptedMore.

(** ** [examples/databasemanagementsample.py]

    The five static methods of [DatabaseManagement], over any client with
    the four database operations of the facade.  Standard output is the
    list of lines printed so far, kept beside the state of the client. *)

Module Sample.
Section DatabaseManagement.

Variable rt : Py.Runtime.
Variable S : Type.
Variable Database : Type.

(** [database.id] *)
Variable id_of : Database -> pyval.

Record Client : Type := {
  client_list_databases : pyval -> generator S Database;
  client_create_database : string -> bool -> M S Database;
  client_get_database : string -> M S Database;
  client_delete_database : string -> M S unit
}.

Definition IO (A : Type) : Type := M (list string * S) A.

(** [print(line)] *)
Definition print (line : string) : IO unit :=
  fun s => (inr tt, ((fst s ++ [line])%list, snd s)).

(** A call on the client leaves the output alone. *)
Definition on_client {A} (m : M S A) : IO A :=
  fun s =>
    match m (snd s) with
    | (r, c) => (r, (fst s, c))
    end.

Definition find_database (client : Client) (id : string) : IO unit :=
  print "1. Query for database" ;;;
  databases <-
    on_client
      (list_of
         (client_list_databases client
            (PDict
               [("query", PStr "SELECT * FROM r WHERE r.id=@id");
                ("parameters",
                 PList [PDict [("name", PStr "@id");
                               ("value", PStr id)]])]))) ;;
  match databases with
  | _ :: _ => print ("Database with id " ++ id ++ " was found")
  | [] => print ("Database with id " ++ id ++ " was not found")
  end.

Definition create_database (client : Client) (id : string)
  : IO unit :=
  print "2. Create database" ;;;
  try_except_HTTPFailure
    (database <- on_client (client_create_database client id true) ;;
     print ("A database with id " ++ id ++ " created"))
    (fun status_code =>
       if (status_code =? 409)%Z
       then print ("A database with id " ++ id ++ " already exists")
       else raise (HTTPFailure status_code)).

Definition read_database (client : Client) (id : string) : IO unit :=
  print "3. Get a database by id" ;;;
  database <- on_client (client_get_database client id) ;;
  ret tt.

(** The [for] loop over the generator: its body runs on the first step,
    then every handle is printed. *)
Definition list_databases (client : Client) : IO unit :=
  print "4. Listing all databases on an account" ;;;
  databases <- on_client (list_of (client_list_databases client PNone)) ;;
  mapM (fun database => print (Py.fmt rt (id_of database))) databases ;;;
  ret tt.

Definition delete_database (client : Client) (id : string)
  : IO unit :=
  print "5. Delete database" ;;;
  try_except_HTTPFailure
    (on_client (client_delete_database client id))
    (fun status_code =>
       if (status_code =? 404)%Z
       then print ("A database with id " ++ id ++ " does not exist")
       else raise (HTTPFailure status_code)).

Definition TEST_DB_NAME : string := "johanste-testdb".

(** The statements at the end of the module. *)
Definition script (client : Client) : IO unit :=
  find_database client TEST_DB_NAME ;;;
  create_database client TEST_DB_NAME ;;;
  read_database client TEST_DB_NAME ;;;
  list_databases client ;;;
  delete_database client TEST_DB_NAME.

End DatabaseManagement.

(** The client of [azure/cosmos/client.py] behind that interface. *)
Definition cosmos_client (rt : Py.Runtime) (W : Type)
    (client_context : ClientContext W)
  : Client W Cosmos.DatabaseResponse :=
  {| client_list_databases := Cosmos.list_databases rt W client_context;
     client_create_database := Cosmos.create_database rt W client_context;
     client_get_database := Cosmos.get_database rt W client_context;
     client_delete_database := Cosmos.delete_database W client_context |}.

End Sample.

(** ** Further example scripts *)

Module MoreExamples.

Import Scripted.

Definition two_entries : list pydict :=
  [[("id", PStr "a"); ("_rid", PStr "r1")]; [("id", PStr "b")]].

(** A listing answered with two well-formed entries. *)
Definition listing_of_two : world := start [(Yields two_entries, [])].

(** A listing whose second entry has no [id]. *)
Definition nameless_entries : list pydict :=
  [[("id", PStr "a")]; [("_rid", PStr "r2")]].

Definition listing_with_nameless_entry : world :=
  start [(Yields nameless_entries, [])].

(** A create answered with another spelling of the id. *)
Definition answered_as_DB : world :=
  start [(Returns [("id", PStr "DB")], [])].

(** The create is refused as unavailable, the read then finds the
    database. *)
Definition unavailable_then_found : world :=
  start [(Fails (HTTPFailure 503), []);
         (Returns Examples.db_properties, [])].

(** A single call answered as unavailable. *)
Definition unavailable : world := start [(Fails (HTTPFailure 503), [])].

(** A read of a container answered with the id [c2]. *)
Definition container_c2 : world :=
  start [(Returns [("id", PStr "c2")], [])].

Definition document : pydict := [("id", PStr "x"); ("n", PInt 1)].

(** An item call answered with [document] and an [etag] header. *)
Definition answered_with_document : ScriptedMore.world :=
  ScriptedMore.start [(Returns document, [("etag", PStr "e1")])].

(** A listing of users answered with one user. *)
Definition one_user : ScriptedMore.world :=
  ScriptedMore.start [(Yields [[("id", PStr "u")]], [])].

Definition cosmos_item_without_self : Cosmos.Item :=
  Cosmos.Item_init [] document.

Definition prototype_container : Prototype.Container :=
  Prototype.Container_init runtime
    (Prototype.Database_init runtime (PStr "d")) (PStr "c").

Definition prototype_item_without_self : Prototype.Item :=
  Prototype.Item_init prototype_container document.

(** A client without an account behind it: the create is refused as a
    conflict, the delete as not found, the rest as unavailable. *)
Definition refusing_client : Sample.Client unit unit :=
  {| Sample.client_list_databases :=
       fun _ => GenCreated (raise (HTTPFailure 503));
     Sample.client_create_database := fun _ _ => raise (HTTPFailure 409);
     Sample.client_get_database := fun _ => raise (HTTPFailure 503);
     Sample.client_delete_database := fun _ => raise (HTTPFailure 404) |}.

End MoreExamples.

(** * Properties *)

(** ** Creating, fetching and deleting databases *)

Section DatabaseLifecycle.

Variable rt : Py.Runtime.
Variable W : Type.
Variable ctx : ClientContext W.

(** What [create_database] does once the remote create has failed with an
    [HTTPFailure], in the [azure.cosmos] variant. *)
Lemma cosmos_create_database_after_failure :
  forall (id : string) (fail_if_exists : bool) (status_code : Z) (w w1 : W),
    CreateDatabase ctx [("id", PStr id)] w
      = (inl (HTTPFailure status_code), w1) ->
    Cosmos.create_database rt W ctx id fail_if_exists w
      = if fail_if_exists && (status_code =? 409)%Z
        then (inl (HTTPFailure status_code), w1)
        else Cosmos.get_database rt W ctx id w1.
Proof.
  intros id fail_if_exists status_code w w1 Hcreate.
  unfold Cosmos.create_database, bind, try_except_HTTPFailure.
  rewrite Hcreate.
  destruct (fail_if_exists && (status_code =? 409)%Z); reflexivity.
Qed.

(** The same, in the prototype variant. *)
Lemma prototype_create_database_after_failure :
  forall (id : string) (fail_if_exists : bool) (status_code : Z) (w w1 : W),
    CreateDatabase ctx [("id", PStr id)] w
      = (inl (HTTPFailure status_code), w1) ->
    Prototype.create_database rt W ctx id fail_if_exists w
      = if fail_if_exists && (status_code =? 409)%Z
        then (inl (HTTPFailure status_code), w1)
        else Prototype.get_database rt W id w1.
Proof.
  intros id fail_if_exists status_code w w1 Hcreate.
  unfold Prototype.create_database, bind, try_except_HTTPFailure.
  rewrite Hcreate.
  destruct (fail_if_exists && (status_code =? 409)%Z); reflexivity.
Qed.

(** [get_database] returns exactly when the remote read does. *)
Lemma cosmos_get_database_returns :
  forall (id : string) (properties : pydict) (w w' : W),
    ReadDatabase ctx ("dbs/" ++ id) w = (inr properties, w') ->
    Cosmos.get_database rt W ctx id w
      = (inr (Cosmos.DatabaseResponse_init rt (PStr id) properties), w').
Proof.
  intros id properties w w' Hread.
  unfold Cosmos.get_database, bind. rewrite Hread. reflexivity.
Qed.

(** C1.  When the remote create answers with the conflict status 409 (a
    database with that id exists): with [fail_if_exists=True] both variants
    raise that [HTTPFailure] with status code 409; with
    [fail_if_exists=False] both variants return what [get_database(id)]
    returns, and, the remote read of the existing database answering with
    its properties, that is a handle to the database [id] and nothing is
    raised. *)
Theorem create_database_conflict :
  forall (id : string) (properties : pydict) (w w1 w2 : W),
    CreateDatabase ctx [("id", PStr id)] w = (inl (HTTPFailure 409), w1) ->
    ReadDatabase ctx ("dbs/" ++ id) w1 = (inr properties, w2) ->
    (Cosmos.create_database rt W ctx id true w
       = (inl (HTTPFailure 409), w1)
     /\ Cosmos.create_database rt W ctx id false w
       = Cosmos.get_database rt W ctx id w1
     /\ Cosmos.create_database rt W ctx id false w
       = (inr (Cosmos.DatabaseResponse_init rt (PStr id) properties), w2))
    /\
    (Prototype.create_database rt W ctx id true w
       = (inl (HTTPFailure 409), w1)
     /\ Prototype.create_database rt W ctx id false w
       = Prototype.get_database rt W id w1
     /\ Prototype.create_database rt W ctx id false w
       = (inr (Prototype.Database_init rt (PStr id)), w1)).
Proof.
  intros id properties w w1 w2 Hcreate Hread.
  pose proof (cosmos_create_database_after_failure id) as Hc.
  pose proof (prototype_create_database_after_failure id) as Hp.
  repeat split.
  - rewrite (Hc true _ _ _ Hcreate). reflexivity.
  - rewrite (Hc false _ _ _ Hcreate). reflexivity.
  - rewrite (Hc false _ _ _ Hcreate). simpl.
    apply cosmos_get_database_returns. exact Hread.
  - rewrite (Hp true _ _ _ Hcreate). reflexivity.
  - rewrite (Hp false _ _ _ Hcreate). reflexivity.
  - rewrite (Hp false _ _ _ Hcreate). reflexivity.
Qed.

(** C8.  When the remote create raises an [HTTPFailure]: with a status code
    other than 409 the failure is swallowed and [create_database] returns
    [get_database(id)], also with [fail_if_exists=True]; the same happens
    with [fail_if_exists=False] whatever the code; the failure leaves
    [create_database] only for status code 409 with [fail_if_exists=True].
    Both variants. *)
Theorem create_database_swallows_other_failures :
  forall (id : string) (fail_if_exists : bool) (status_code : Z) (w w1 : W),
    CreateDatabase ctx [("id", PStr id)] w
      = (inl (HTTPFailure status_code), w1) ->
    ((status_code <> 409%Z \/ fail_if_exists = false ->
      Cosmos.create_database rt W ctx id fail_if_exists w
        = Cosmos.get_database rt W ctx id w1
      /\ Prototype.create_database rt W ctx id fail_if_exists w
        = Prototype.get_database rt W id w1)
     /\
     (status_code = 409%Z /\ fail_if_exists = true ->
      Cosmos.create_database rt W ctx id fail_if_exists w
        = (inl (HTTPFailure status_code), w1)
      /\ Prototype.create_database rt W ctx id fail_if_exists w
        = (inl (HTTPFailure status_code), w1))).
Proof.
  intros id fail_if_exists status_code w w1 Hcreate.
  rewrite (cosmos_create_database_after_failure id _ _ _ _ Hcreate).
  rewrite (prototype_create_database_after_failure id _ _ _ _ Hcreate).
  split.
  - intros [Hcode | Hflag].
    + apply Z.eqb_neq in Hcode. rewrite Hcode, andb_false_r. split; reflexivity.
    + rewrite Hflag. split; reflexivity.
  - intros [Hcode Hflag]. subst. split; reflexivity.
Qed.

(** C6.  Whatever failure the remote delete raises for [dbs/{id}], a 404
    for a database that does not exist included, [delete_database(id)]
    raises that same failure and leaves the transport context in the state
    the remote call left it in; [delete_database] is that single remote
    call and nothing else.  Both variants. *)
Theorem delete_database_propagates_failure :
  forall (id : string) (e : exn) (w w' : W),
    DeleteDatabase ctx ("dbs/" ++ id) w = (inl e, w') ->
    (Cosmos.delete_database W ctx id w = (inl e, w')
     /\ Prototype.delete_database W ctx id w = (inl e, w'))
    /\ Cosmos.delete_database W ctx id = DeleteDatabase ctx ("dbs/" ++ id)
    /\ Prototype.delete_database W ctx id = DeleteDatabase ctx ("dbs/" ++ id).
Proof.
  intros id e w w' Hdelete.
  unfold Cosmos.delete_database, Prototype.delete_database.
  rewrite Hdelete. repeat split; reflexivity.
Qed.

(** C7.  Once [create_database(id)] has returned, a following
    [get_database(id)] returns a handle whose [id] is the [id] passed in:
    in the [azure.cosmos] variant as soon as the remote read of [dbs/{id}]
    answers, in the prototype variant always. *)
Theorem create_then_get_database_id :
  forall (id : string) (fail_if_exists : bool) (w w1 w2 : W)
         (created : Cosmos.DatabaseResponse) (properties : pydict),
    Cosmos.create_database rt W ctx id fail_if_exists w
      = (inr created, w1) ->
    ReadDatabase ctx ("dbs/" ++ id) w1 = (inr properties, w2) ->
    (exists database,
        (Cosmos.create_database rt W ctx id fail_if_exists ;;;
         Cosmos.get_database rt W ctx id) w = (inr database, w2)
        /\ Cosmos.database_id (Cosmos.database_of database) = PStr id)
    /\
    (forall (w1' : W) (created' : Prototype.Database),
        Prototype.create_database rt W ctx id fail_if_exists w
          = (inr created', w1') ->
        exists database,
          (Prototype.create_database rt W ctx id fail_if_exists ;;;
           Prototype.get_database rt W id) w = (inr database, w1')
          /\ Prototype.database_id database = PStr id).
Proof.
  intros id fail_if_exists w w1 w2 created properties Hcreate Hread.
  split.
  - exists (Cosmos.DatabaseResponse_init rt (PStr id) properties).
    split; [| reflexivity].
    unfold bind at 1. rewrite Hcreate.
    apply cosmos_get_database_returns. exact Hread.
  - intros w1' created' Hcreate'.
    exists (Prototype.Database_init rt (PStr id)).
    split; [| reflexivity].
    unfold bind at 1. rewrite Hcreate'. reflexivity.
Qed.

End DatabaseLifecycle.

(** ** Reading items and the session token *)

Section SessionToken.

Variable W : Type.
Variable ctx : ClientContext W.

(** A successful [get_item] stores the token of the response headers when
    they carry one. *)
Lemma get_item_records_session_token :
  forall (self : Cosmos.Container) (id : string) (w w' : W)
         (result : pydict) (token : pyval),
    ReadItem ctx (Cosmos.collection_link self ++ "/docs/" ++ id) w
      = (inr result, w') ->
    Py.lookup "x-ms-session-token" (last_response_headers ctx w')
      = Some token ->
    exists item self',
      Cosmos.get_item W ctx id (self, w) = (inr item, (self', w'))
      /\ Cosmos.session_token self' = token
      /\ Cosmos.response_headers item = last_response_headers ctx w'.
Proof.
  intros self id w w' result token Hread Htoken.
  unfold Cosmos.get_item, bind, Cosmos.read_self, Cosmos.call,
    Cosmos.read_last_response_headers, Cosmos.assign_session_token, ret.
  cbn [fst snd]. rewrite Hread. cbn [fst snd].
  unfold Py.get. rewrite Htoken.
  eexists. eexists. split; [reflexivity |]. split; reflexivity.
Qed.

(** Running the generator of [list_items] to its end never assigns to the
    container. *)
Lemma list_items_leaves_container :
  forall (options : pyval) (self : Cosmos.Container) (w : W),
    fst (snd (list_of (Cosmos.list_items W ctx options) (self, w))) = self.
Proof.
  intros options self w.
  unfold Cosmos.list_items, list_of, bind, Cosmos.read_self, Cosmos.call,
    Cosmos.read_last_response_headers, ret.
  cbn [fst snd].
  destruct (ReadItems ctx (Cosmos.collection_link self)
              (Py.or_ options (PDict [])) w) as [[e | items] w'].
  - destruct e; reflexivity.
  - reflexivity.
Qed.

(** C9.  When the response headers seen by [get_item] carry no
    [x-ms-session-token] key the container comes out of the call as it
    went in, its [session_token] included; so it does when the remote read
    raises. *)
Theorem get_item_without_token_keeps_session_token :
  forall (self self' : Cosmos.Container) (id : string) (w w' : W)
         (r : exn + Cosmos.Item),
    Cosmos.get_item W ctx id (self, w) = (r, (self', w')) ->
    Py.lookup "x-ms-session-token" (last_response_headers ctx w') = None ->
    Cosmos.session_token self' = Cosmos.session_token self /\ self' = self.
Proof.
  intros self self' id w w' r Hrun Hheaders.
  assert (self' = self) as ->; [| split; reflexivity].
  revert Hrun.
  unfold Cosmos.get_item, bind, Cosmos.read_self, Cosmos.call,
    Cosmos.read_last_response_headers, Cosmos.assign_session_token, ret.
  cbn [fst snd].
  destruct (ReadItem ctx (Cosmos.collection_link self ++ "/docs/" ++ id) w)
    as [[e | result] w1]; cbn [fst snd]; intros Hrun.
  - congruence.
  - injection Hrun as _ Hself Hw. subst w1.
    unfold Py.get in Hself. rewrite Hheaders in Hself.
    destruct self; simpl in Hself. symmetry. exact Hself.
Qed.

End SessionToken.

(** C3.  [get_item] records the token (lemma
    [get_item_records_session_token]); [list_items] does not.  Here the
    container starts with no token, the answer to the listing comes with the
    headers [{"x-ms-session-token": "0:42"}], the generator is run to its
    end, and the container still has no token. *)
Theorem list_items_does_not_record_session_token :
  exists (items : list Cosmos.Item) (self' : Cosmos.Container)
         (w' : Scripted.world),
    list_of (Cosmos.list_items Scripted.world Scripted.context PNone)
      (Cosmos.Container_init Scripted.runtime (Cosmos.ADatabaseId "d")
         (PStr "c"),
       Scripted.start
         [(Scripted.Yields [[("id", PStr "x")]],
           [("x-ms-session-token", PStr "0:42")])])
      = (inr items, (self', w'))
    /\ length items = 1%nat
    /\ Py.lookup "x-ms-session-token"
         (last_response_headers Scripted.context w') = Some (PStr "0:42")
    /\ Cosmos.session_token self' = PNone.
Proof.
  do 3 eexists. split; [vm_compute; reflexivity |].
  repeat split; reflexivity.
Qed.

(** ** Resolving an item reference *)

Section DocumentLink.

Variable W : Type.
Variable ctx : ClientContext W.

(** In the [azure.cosmos] variant a bare link resolves to itself and an
    item to the value of its [_self] field. *)
Lemma cosmos_document_link_resolves :
  (forall link : string,
      Cosmos._document_link (Cosmos.ALink link) = inr (PStr link))
  /\ (forall (item : Cosmos.Item) (self_link : pyval),
         Py.lookup "_self" (Cosmos.item_fields item) = Some self_link ->
         Cosmos._document_link (Cosmos.AnItem item) = inr self_link).
Proof.
  split.
  - reflexivity.
  - intros item self_link Hself.
    unfold Cosmos._document_link, Py.getitem. rewrite Hself. reflexivity.
Qed.

(** [replace_item] and [delete_item] of the [azure.cosmos] variant hand
    the resolved link to the transport context. *)
Lemma cosmos_item_operations_address_resolved_link :
  forall (item : Cosmos.item_or_link) (document_link : pyval)
         (body : pydict) (s : Cosmos.Container * W),
    Cosmos._document_link item = inr document_link ->
    Cosmos.delete_item W ctx item s
      = Cosmos.call W (DeleteItem ctx document_link) s
    /\ Cosmos.replace_item W ctx item body s
       = (data <- Cosmos.call W (ReplaceItem ctx document_link body) ;;
          headers <- Cosmos.read_last_response_headers W ctx ;;
          ret (Cosmos.Item_init headers data)) s.
Proof.
  intros item document_link body s Hlink.
  unfold Cosmos.delete_item, Cosmos.replace_item.
  rewrite Hlink. split; reflexivity.
Qed.

(** In the prototype variant an item still resolves to its [_self]. *)
Lemma prototype_document_link_of_item :
  forall (item : Prototype.Item) (self_link : pyval),
    Py.lookup "_self" (Prototype.item_fields item) = Some self_link ->
    Prototype._document_link (Prototype.AnItem item) = inr self_link.
Proof.
  intros item self_link Hself.
  unfold Prototype._document_link, Prototype.type_is_str_literal,
    Prototype.subscript, Py.getitem.
  rewrite Hself. reflexivity.
Qed.

(** C4.  In the prototype variant a bare link string never reaches the
    transport context: [replace_item] and [delete_item] raise [TypeError]
    while resolving it, in whatever state they are called. *)
Theorem prototype_bare_link_raises_TypeError :
  forall (self : Prototype.Container) (link : string) (body : pydict)
         (w : W),
    Prototype.replace_item W ctx self (Prototype.ALink link) body w
      = (inl TypeError, w)
    /\ Prototype.delete_item W ctx self (Prototype.ALink link) w
       = (inl TypeError, w).
Proof.
  intros self link body w. split; reflexivity.
Qed.

End DocumentLink.

(** ** Updating the properties of a container *)

Section ContainerProperties.

Variable rt : Py.Runtime.
Variable W : Type.
Variable ctx : ClientContext W.

(** What the comprehension keeps: a key is in the payload exactly when its
    value is not [None]. *)
Lemma payload_fields :
  forall (id partition_key indexing_policy ttl conflict_resolution_policy
            : pyval),
    let payload :=
      Py.drop_None
        [("id", id);
         ("partitionKey", partition_key);
         ("indexingPolicy", indexing_policy);
         ("defaultTtl", ttl);
         ("conflictResolutionPolicy", conflict_resolution_policy)] in
    let kept (v : pyval) := if Py.is_not_None v then Some v else None in
    Py.lookup "id" payload = kept id
    /\ Py.lookup "partitionKey" payload = kept partition_key
    /\ Py.lookup "indexingPolicy" payload = kept indexing_policy
    /\ Py.lookup "defaultTtl" payload = kept ttl
    /\ Py.lookup "conflictResolutionPolicy" payload
       = kept conflict_resolution_policy.
Proof.
  intros id partition_key indexing_policy ttl conflict_resolution_policy.
  unfold Py.drop_None. cbn [filter snd].
  destruct (Py.is_not_None id), (Py.is_not_None partition_key),
    (Py.is_not_None indexing_policy), (Py.is_not_None ttl),
    (Py.is_not_None conflict_resolution_policy);
    repeat split; reflexivity.
Qed.

(** With an integer [default_ttl] the update that is sent carries the
    filtered payload, to the link derived from the container id. *)
Lemma cosmos_set_container_properties_with_ttl :
  forall (self : Cosmos.Database) (id : string) (n : Z)
         (partition_key indexing_policy conflict_resolution_policy : pyval)
         (w : W),
    Cosmos.set_container_properties rt W ctx self (Cosmos.AContainerId id)
      partition_key indexing_policy (PInt n) conflict_resolution_policy w
    = (ReplaceContainer ctx
         (Cosmos.database_link self ++ "/colls/" ++ id)
         (Py.drop_None
            [("id", PStr id);
             ("partitionKey", partition_key);
             ("indexingPolicy", indexing_policy);
             ("defaultTtl", PInt n);
             ("conflictResolutionPolicy", conflict_resolution_policy)]) ;;;
       ret tt) w.
Proof. reflexivity. Qed.

(** [set_container_properties(container, default_ttl=3600)] sends only
    [id] and [defaultTtl]. *)
Lemma cosmos_set_container_properties_ttl_only :
  forall (self : Cosmos.Database) (id : string) (w : W),
    Cosmos.set_container_properties rt W ctx self (Cosmos.AContainerId id)
      PNone PNone (PInt 3600) PNone w
    = (ReplaceContainer ctx
         (Cosmos.database_link self ++ "/colls/" ++ id)
         [("id", PStr id); ("defaultTtl", PInt 3600)] ;;;
       ret tt) w.
Proof. reflexivity. Qed.

(** C2.  With [default_ttl] omitted, so [None], [set_container_properties]
    raises [TypeError] out of [int(default_ttl)] before any payload exists
    and sends nothing, whatever the other three properties are.  Both
    variants. *)
Theorem set_container_properties_without_ttl_raises :
  forall (partition_key indexing_policy conflict_resolution_policy : pyval)
         (w : W),
    (forall (self : Cosmos.Database) (container : Cosmos.container_or_id),
        Cosmos.set_container_properties rt W ctx self container
          partition_key indexing_policy PNone conflict_resolution_policy w
        = (inl TypeError, w))
    /\ (forall (self : Prototype.Container) (id : pyval),
           Prototype.set_container_properties rt W ctx self id
             partition_key indexing_policy PNone
             conflict_resolution_policy w
           = (inl TypeError, w)).
Proof.
  intros partition_key indexing_policy conflict_resolution_policy w.
  split; intros; reflexivity.
Qed.

End ContainerProperties.

(** ** Looking a container up by id, prototype variant *)

Section ContainerLookup.

Variable rt : Py.Runtime.
Variable W : Type.
Variable ctx : ClientContext W.

(** The comprehension of [list_containers] over a feed whose entries all
    have an [id]. *)
Lemma list_containers_comprehension :
  forall (self : Prototype.Database) (feed : list pydict) (w : W),
    Forall (fun container => Py.lookup "id" container <> None) feed ->
    mapM (fun container =>
            id <- lift_result (Py.getitem container "id") ;;
            ret (Prototype.Container_init rt self id)) feed w
    = (inr (map (fun container =>
                   Prototype.Container_init rt self
                     (Py.get container "id" PNone)) feed), w).
Proof.
  intros self feed w Hids.
  set (wrap := fun container : pydict =>
                 id <- lift_result (Py.getitem container "id") ;;
                 ret (Prototype.Container_init rt self id)).
  induction Hids as [| container rest Hid _ IH].
  - reflexivity.
  - destruct (Py.lookup "id" container) as [v |] eqn:Hv; [| congruence].
    assert (wrap container w
            = (inr (Prototype.Container_init rt self v), w)) as Hwrap.
    { unfold wrap, bind, lift_result, Py.getitem, ret.
      rewrite Hv. reflexivity. }
    cbn [mapM map]. unfold bind at 1. rewrite Hwrap.
    unfold bind at 1. rewrite IH.
    unfold ret, Py.get. rewrite Hv. reflexivity.
Qed.

(** No container at all in the database: [ValueError]. *)
Lemma prototype_get_container_of_empty_feed :
  forall (self : Prototype.Database) (id : string) (w w' : W),
    ReadContainers ctx (Prototype.database_link self) w = (inr [], w') ->
    Prototype.get_container rt W ctx self id w = (inl ValueError, w').
Proof.
  intros self id w w' Hfeed.
  unfold Prototype.get_container, try_except_StopIteration, next,
    Prototype.list_containers, bind, raise.
  rewrite Hfeed. reflexivity.
Qed.

(** At least one container in the database: the first one listed is
    returned, whatever [id] was asked for. *)
Lemma prototype_get_container_returns_first_listed :
  forall (self : Prototype.Database) (id : string) (w w' : W)
         (first : pydict) (rest : list pydict),
    ReadContainers ctx (Prototype.database_link self) w
      = (inr (first :: rest), w') ->
    Forall (fun container => Py.lookup "id" container <> None)
      (first :: rest) ->
    Prototype.get_container rt W ctx self id w
      = (inr (Prototype.Container_init rt self (Py.get first "id" PNone)),
         w').
Proof.
  intros self id w w' first rest Hfeed Hids.
  unfold Prototype.get_container, try_except_StopIteration, next,
    Prototype.list_containers.
  unfold bind at 1. rewrite Hfeed.
  rewrite (list_containers_comprehension self _ w' Hids).
  reflexivity.
Qed.

End ContainerLookup.

(** C10.  The database [d] lists the single container [a]; asked for the
    container [b], the prototype's [get_container] raises nothing and
    returns the container [a], although no container matches [b]. *)
Theorem prototype_get_container_returns_other_container :
  Prototype.get_container Scripted.runtime Scripted.world Scripted.context
    (Prototype.Database_init Scripted.runtime (PStr "d")) "b"
    (Scripted.start [(Scripted.Yields [[("id", PStr "a")]], [])])
  = (inr {| Prototype.container_database :=
              Prototype.Database_init Scripted.runtime (PStr "d");
            Prototype.container_id := PStr "a";
            Prototype.collection_link := "/dbs/d/colls/a" |},
     {| Scripted.script := [];
        Scripted.headers := [];
        Scripted.calls := [Scripted.CallReadContainers "/dbs/d"] |})
  /\ PStr "a" <> PStr "b".
Proof.
  split; [vm_compute; reflexivity | discriminate].
Qed.

(** ** Resource links

    Which link an operation addresses is read off the calls that the
    scripted transport context records; the statements hold for every
    script. *)

Section ResourceLinks.

Variable rt : Py.Runtime.

(** Every transport operation appends exactly its own call. *)
Lemma answer_records_call :
  forall (A : Type) (c : Scripted.call) (decode : Scripted.reply -> option A)
         (w : Scripted.world),
    Scripted.calls (snd (Scripted.answer c decode w))
    = (Scripted.calls w ++ [c])%list.
Proof.
  intros A c decode w. unfold Scripted.answer.
  destruct (Scripted.script w) as [| [r h] rest]; [reflexivity |].
  destruct r; try reflexivity; destruct (decode _); reflexivity.
Qed.

(** A remote call followed by steps that stay local. *)
Lemma bind_local_records_call :
  forall (A B : Type) (c : Scripted.call)
         (decode : Scripted.reply -> option A)
         (k : A -> M Scripted.world B) (w : Scripted.world),
    (forall a w', snd (k a w') = w') ->
    Scripted.calls (snd ((a <- Scripted.answer c decode ;; k a) w))
    = (Scripted.calls w ++ [c])%list.
Proof.
  intros A B c decode k w Hlocal.
  rewrite <- (answer_records_call A c decode w).
  unfold bind.
  destruct (Scripted.answer c decode w) as [[e | a] w'].
  - reflexivity.
  - rewrite Hlocal. reflexivity.
Qed.

(** [get_container_properties] spells the path segment [cols], unlike
    every other container operation. *)
Lemma get_container_properties_link :
  forall (self : Cosmos.Database) (id : string) (w : Scripted.world),
    Scripted.calls
      (snd (Cosmos.get_container_properties Scripted.world Scripted.context
              self (Cosmos.AContainerId id) w))
    = (Scripted.calls w
        ++ [Scripted.CallReadContainer
              (Cosmos.database_link self ++ "/cols/" ++ id)])%list.
Proof.
  intros self id w. apply answer_records_call.
Qed.

(** [get_database_properties] hands the bare id over as the link. *)
Lemma get_database_properties_link :
  forall (id : string) (w : Scripted.world),
    Scripted.calls
      (snd (Cosmos.get_database_properties Scripted.world Scripted.context
              id w))
    = (Scripted.calls w ++ [Scripted.CallReadDatabase id])%list.
Proof.
  intros id w. apply answer_records_call.
Qed.

(** C5, as amended.  Links are built by string interpolation from the
    parent link and the id.  A database handle stores [/dbs/{id}]; a
    container handle stores [{database_link}/colls/{id}], the parent link
    being [dbs/{database}] when the database is given as a bare id.
    [get_database] and [delete_database] address [dbs/{id}], with no
    leading slash.  [get_container] and [delete_container] address
    [{database_link}/colls/{id}] for an id and the stored
    [collection_link] for a handle.  [get_item] addresses
    [{collection_link}/docs/{id}]. *)
Theorem resource_links_by_interpolation :
  (* handles *)
  (forall id : pyval,
      Cosmos.database_link (Cosmos.Database_init rt id)
        = "/dbs/" ++ Py.fmt rt id
      /\ Prototype.database_link (Prototype.Database_init rt id)
         = "/dbs/" ++ Py.fmt rt id)
  /\ (forall (database : Cosmos.Database) (name : string) (id : pyval),
         Cosmos.collection_link
           (Cosmos.Container_init rt (Cosmos.ADatabase database) id)
           = Cosmos.database_link database ++ "/colls/" ++ Py.fmt rt id
         /\ Cosmos.collection_link
              (Cosmos.Container_init rt (Cosmos.ADatabaseId name) id)
            = ("dbs/" ++ name) ++ "/colls/" ++ Py.fmt rt id)
  /\ (forall (database : Prototype.Database) (id : pyval),
         Prototype.collection_link (Prototype.Container_init rt database id)
         = Prototype.database_link database ++ "/colls/" ++ Py.fmt rt id)
  (* databases addressed by id *)
  /\ (forall (id : string) (w : Scripted.world),
         Scripted.calls
           (snd (Cosmos.get_database rt Scripted.world Scripted.context
                   id w))
           = (Scripted.calls w ++ [Scripted.CallReadDatabase ("dbs/" ++ id)])%list
         /\ Scripted.calls
              (snd (Cosmos.delete_database Scripted.world Scripted.context
                      id w))
            = (Scripted.calls w
                ++ [Scripted.CallDeleteDatabase ("dbs/" ++ id)])%list
         /\ Scripted.calls
              (snd (Prototype.delete_database Scripted.world
                      Scripted.context id w))
            = (Scripted.calls w
                ++ [Scripted.CallDeleteDatabase ("dbs/" ++ id)])%list)
  (* containers addressed by id or by handle *)
  /\ (forall (self : Cosmos.Database) (id : string) (w : Scripted.world),
         Scripted.calls
           (snd (Cosmos.get_container rt Scripted.world Scripted.context
                   self (Cosmos.AContainerId id) w))
           = (Scripted.calls w
               ++ [Scripted.CallReadContainer
                     (Cosmos.database_link self ++ "/colls/" ++ id)])%list
         /\ Scripted.calls
              (snd (Cosmos.delete_container Scripted.world Scripted.context
                      self (Cosmos.AContainerId id) w))
            = (Scripted.calls w
                ++ [Scripted.CallDeleteContainer
                      (Cosmos.database_link self ++ "/colls/" ++ id)])%list)
  /\ (forall (self : Cosmos.Database) (container : Cosmos.Container)
             (w : Scripted.world),
         Scripted.calls
           (snd (Cosmos.get_container rt Scripted.world Scripted.context
                   self (Cosmos.AContainer container) w))
           = (Scripted.calls w
               ++ [Scripted.CallReadContainer
                     (Cosmos.collection_link container)])%list
         /\ Scripted.calls
              (snd (Cosmos.delete_container Scripted.world Scripted.context
                      self (Cosmos.AContainer container) w))
            = (Scripted.calls w
                ++ [Scripted.CallDeleteContainer
                      (Cosmos.collection_link container)])%list)
  (* items addressed by id *)
  /\ (forall (self : Cosmos.Container) (id : string) (w : Scripted.world),
         Scripted.calls
           (snd (snd (Cosmos.get_item Scripted.world Scripted.context id
                        (self, w))))
         = (Scripted.calls w
             ++ [Scripted.CallReadItem
                   (Cosmos.collection_link self ++ "/docs/" ++ id)])%list)
  /\ (forall (self : Prototype.Container) (id : string)
             (w : Scripted.world),
         Scripted.calls
           (snd (Prototype.get_item Scripted.world Scripted.context self id
                   w))
         = (Scripted.calls w
             ++ [Scripted.CallReadItem
                   (Prototype.collection_link self ++ "/docs/" ++ id)])%list).
Proof.
  assert (Hlocal : forall (A : Type) (key : string) (d : pydict)
                          (k : pyval -> A) (w' : Scripted.world),
             snd ((v <- lift_result (Py.getitem d key) ;; ret (k v)) w')
             = w').
  { intros A key d k w'. unfold bind, lift_result, ret.
    destruct (Py.getitem d key); reflexivity. }
  split; [| split; [| split; [| split; [| split; [| split; [| split]]]]]].
  - intros id. split; reflexivity.
  - intros database name id. split; reflexivity.
  - intros database id. reflexivity.
  - intros id w. split; [| split].
    + apply bind_local_records_call. reflexivity.
    + apply answer_records_call.
    + apply answer_records_call.
  - intros self id w. split.
    + apply bind_local_records_call. intros a w'. apply Hlocal.
    + apply bind_local_records_call. reflexivity.
  - intros self container w. split.
    + apply bind_local_records_call. intros a w'. apply Hlocal.
    + apply bind_local_records_call. reflexivity.
  - intros self id w.
    unfold Cosmos.get_item, bind, Cosmos.read_self, Cosmos.call,
      Cosmos.read_last_response_headers, Cosmos.assign_session_token, ret.
    cbn [fst snd ReadItem Scripted.context].
    rewrite <- (answer_records_call _
                  (Scripted.CallReadItem
                     (Cosmos.collection_link self ++ "/docs/" ++ id))
                  Scripted.properties_of w).
    destruct (Scripted.answer _ _ w) as [[e | result] w']; reflexivity.
  - intros self id w. apply bind_local_records_call. reflexivity.
Qed.

End ResourceLinks.

(** C5, as stated, fails: [delete_database("x")] and [get_database("x")]
    address [dbs/x], which is not the link [/dbs/x] of the database [x]. *)
Lemma database_operations_drop_leading_slash :
  Scripted.calls
    (snd (Cosmos.delete_database Scripted.world Scripted.context "x"
            (Scripted.start [])))
    = [Scripted.CallDeleteDatabase "dbs/x"]
  /\ Scripted.calls
       (snd (Cosmos.get_database Scripted.runtime Scripted.world
               Scripted.context "x" (Scripted.start [])))
     = [Scripted.CallReadDatabase "dbs/x"]
  /\ Cosmos.database_link (Cosmos.Database_init Scripted.runtime (PStr "x"))
     = "/dbs/x"
  /\ "dbs/x" <> "/dbs/x".
Proof.
  repeat split; try reflexivity. discriminate.
Qed.

(** ** The theorems at work on example scripts *)

Lemma create_database_conflict_witness :
  (Cosmos.create_database Scripted.runtime Scripted.world Scripted.context
     "db" true Examples.conflict_then_found
   = (inl (HTTPFailure 409),
      {| Scripted.script := [(Scripted.Returns Examples.db_properties, [])];
         Scripted.headers := [];
         Scripted.calls := [Scripted.CallCreateDatabase [("id", PStr "db")]]
      |}))
  /\ (Cosmos.create_database Scripted.runtime Scripted.world Scripted.context
        "db" false Examples.conflict_then_found
      = (inr (Cosmos.DatabaseResponse_init Scripted.runtime (PStr "db")
                Examples.db_properties),
         {| Scripted.script := [];
            Scripted.headers := [];
            Scripted.calls :=
              [Scripted.CallCreateDatabase [("id", PStr "db")];
               Scripted.CallReadDatabase "dbs/db"] |})).
Proof.
  pose proof
    (create_database_conflict Scripted.runtime Scripted.world
       Scripted.context "db" Examples.db_properties
       Examples.conflict_then_found _ _ eq_refl eq_refl) as [[Hraise [_ Hget]] _].
  split; [exact Hraise | exact Hget].
Defined.

Lemma create_database_swallows_other_failures_witness :
  Cosmos.create_database Scripted.runtime Scripted.world Scripted.context
    "db" true Examples.unavailable_then_missing
  = Cosmos.get_database Scripted.runtime Scripted.world Scripted.context "db"
      {| Scripted.script := [(Scripted.Fails (HTTPFailure 404), [])];
         Scripted.headers := [];
         Scripted.calls := [Scripted.CallCreateDatabase [("id", PStr "db")]]
      |}.
Proof.
  refine
    (proj1
       (proj1
          (create_database_swallows_other_failures Scripted.runtime
             Scripted.world Scripted.context "db" true 503
             Examples.unavailable_then_missing _ eq_refl)
          (or_introl _))).
  discriminate.
Defined.

Lemma delete_database_propagates_failure_witness :
  Cosmos.delete_database Scripted.world Scripted.context "db"
    Examples.nothing_to_delete
  = (inl (HTTPFailure 404),
     {| Scripted.script := [];
        Scripted.headers := [];
        Scripted.calls := [Scripted.CallDeleteDatabase "dbs/db"] |})
  /\ Prototype.delete_database Scripted.world Scripted.context "db"
       Examples.nothing_to_delete
     = (inl (HTTPFailure 404),
        {| Scripted.script := [];
           Scripted.headers := [];
           Scripted.calls := [Scripted.CallDeleteDatabase "dbs/db"] |}).
Proof.
  exact
    (proj1
       (delete_database_propagates_failure Scripted.world Scripted.context
          "db" (HTTPFailure 404) Examples.nothing_to_delete _ eq_refl)).
Defined.

Lemma create_then_get_database_id_witness :
  (exists database : Cosmos.DatabaseResponse,
      (Cosmos.create_database Scripted.runtime Scripted.world Scripted.context
         "db" false ;;;
       Cosmos.get_database Scripted.runtime Scripted.world Scripted.context
         "db") Examples.created_then_found
      = (inr database,
         {| Scripted.script := [];
            Scripted.headers := [];
            Scripted.calls :=
              [Scripted.CallCreateDatabase [("id", PStr "db")];
               Scripted.CallReadDatabase "dbs/db"] |})
      /\ Cosmos.database_id (Cosmos.database_of database) = PStr "db")
  /\ (exists database : Prototype.Database,
         (Prototype.create_database Scripted.runtime Scripted.world
            Scripted.context "db" false ;;;
          Prototype.get_database Scripted.runtime Scripted.world "db")
           Examples.created_then_found
         = (inr database,
            {| Scripted.script := [(Scripted.Returns Examples.db_properties,
                                    [])];
               Scripted.headers := [];
               Scripted.calls :=
                 [Scripted.CallCreateDatabase [("id", PStr "db")]] |})
         /\ Prototype.database_id database = PStr "db").
Proof.
  pose proof
    (create_then_get_database_id Scripted.runtime Scripted.world
       Scripted.context "db" false Examples.created_then_found _ _
       (Cosmos.DatabaseResponse_init Scripted.runtime (PStr "db")
          Examples.db_properties)
       Examples.db_properties eq_refl eq_refl) as [Hcosmos Hprototype].
  split.
  - exact Hcosmos.
  - exact (Hprototype _ (Prototype.Database_init Scripted.runtime (PStr "db"))
             eq_refl).
Defined.

Lemma get_item_without_token_keeps_session_token_witness :
  Cosmos.session_token
    (fst (snd (Cosmos.get_item Scripted.world Scripted.context "x"
                 (Examples.container_with_token,
                  Examples.read_without_token))))
  = PStr "0:7".
Proof.
  exact
    (proj1
       (get_item_without_token_keeps_session_token Scripted.world
          Scripted.context Examples.container_with_token _ "x"
          Examples.read_without_token _ _ eq_refl eq_refl)).
Defined.

(** ** Two runs of the [azure.cosmos] variant *)

(** Deleting an item that carries [_self = "dbs/d/colls/c/docs/x"], from a
    container with another link, addresses the embedded link. *)
Example delete_item_addresses_self_link :
  Scripted.calls
    (snd (snd (Cosmos.delete_item Scripted.world Scripted.context
                 (Cosmos.AnItem
                    (Cosmos.Item_init []
                       [("id", PStr "x");
                        ("_self", PStr "dbs/d/colls/c/docs/x")]))
                 (Examples.container_with_token,
                  Scripted.start [(Scripted.Returns [], [])]))))
  = [Scripted.CallDeleteItem (PStr "dbs/d/colls/c/docs/x")].
Proof. reflexivity. Qed.

(** [set_container_properties("c", default_ttl=3600)] on the database [d]
    sends [{"id": "c", "defaultTtl": 3600}] and nothing else. *)
Example set_container_properties_ttl_payload :
  Scripted.calls
    (snd (Cosmos.set_container_properties Scripted.runtime Scripted.world
            Scripted.context
            (Cosmos.Database_init Scripted.runtime (PStr "d"))
            (Cosmos.AContainerId "c") PNone PNone (PInt 3600) PNone
            (Scripted.start [(Scripted.Returns [], [])])))
  = [Scripted.CallReplaceContainer "/dbs/d/colls/c"
       [("id", PStr "c"); ("defaultTtl", PInt 3600)]].
Proof. reflexivity. Qed.

(** * Further properties *)

(** ** Dictionaries *)

(** A key that is not in the dictionary is added at its end. *)
Lemma setitem_fresh :
  forall (d : pydict) (k : string) (v : pyval),
    ~ In k (map fst d) ->
    Py.setitem d k v = (d ++ [(k, v)])%list.
Proof.
  intros d k v Hfresh. induction d as [| [k' v'] rest IH]; cbn.
  - reflexivity.
  - cbn in Hfresh.
    destruct (k' =? k) eqn:Hk.
    + apply String.eqb_eq in Hk. tauto.
    + rewrite IH; [reflexivity | tauto].
Qed.

(** [d.update(other)] with keys of [other] that are new and distinct
    appends [other]. *)
Lemma update_fresh :
  forall (other d : pydict),
    NoDup (map fst (d ++ other)%list) ->
    Py.update d other = (d ++ other)%list.
Proof.
  unfold Py.update.
  induction other as [| [k v] rest IH]; intros d Hnodup; cbn.
  - rewrite app_nil_r. reflexivity.
  - assert (~ In k (map fst d)) as Hfresh.
    { rewrite map_app in Hnodup. cbn in Hnodup.
      apply NoDup_remove_2 in Hnodup.
      intros Hin. apply Hnodup. apply in_or_app. left. exact Hin. }
    rewrite (setitem_fresh d k v Hfresh).
    rewrite IH.
    + rewrite <- app_assoc. reflexivity.
    + rewrite <- app_assoc. exact Hnodup.
Qed.

(** ** Listings *)

Section Listings.

Variable W : Type.

(** The comprehension [[wrap(p["id"], p) for p in feed]] over a feed whose
    entries all have an [id]. *)
Lemma comprehension_over_ids :
  forall (B : Type) (wrap : pyval -> pydict -> B) (feed : list pydict)
         (w : W),
    Forall (fun p => Py.lookup "id" p <> None) feed ->
    mapM (fun p => id <- lift_result (Py.getitem p "id") ;;
                   ret (wrap id p)) feed w
    = (inr (map (fun p => wrap (Py.get p "id" PNone) p) feed), w).
Proof.
  intros B wrap feed w Hids.
  set (step := fun p : pydict =>
                 id <- lift_result (Py.getitem p "id") ;; ret (wrap id p)).
  induction Hids as [| p rest Hid _ IH].
  - reflexivity.
  - destruct (Py.lookup "id" p) as [v |] eqn:Hv; [| congruence].
    assert (step p w = (inr (wrap v p), w)) as Hstep.
    { unfold step, bind, lift_result, Py.getitem, ret.
      rewrite Hv. reflexivity. }
    cbn [mapM map]. unfold bind at 1. rewrite Hstep.
    unfold bind at 1. rewrite IH.
    unfold ret, Py.get. rewrite Hv. reflexivity.
Qed.

(** The same comprehension over a feed with an entry that has no [id]. *)
Lemma comprehension_missing_id :
  forall (B : Type) (wrap : pyval -> pydict -> B) (feed : list pydict)
         (w : W),
    Exists (fun p => Py.lookup "id" p = None) feed ->
    mapM (fun p => id <- lift_result (Py.getitem p "id") ;;
                   ret (wrap id p)) feed w
    = (inl (KeyError "id"), w).
Proof.
  intros B wrap feed w Hmissing.
  set (step := fun p : pydict =>
                 id <- lift_result (Py.getitem p "id") ;; ret (wrap id p)).
  induction feed as [| p rest IH].
  - inversion Hmissing.
  - cbn [mapM]. unfold bind at 1.
    destruct (Py.lookup "id" p) as [v |] eqn:Hv.
    + assert (step p w = (inr (wrap v p), w)) as Hstep.
      { unfold step, bind, lift_result, Py.getitem, ret.
        rewrite Hv. reflexivity. }
      rewrite Hstep. unfold bind at 1. rewrite IH; [reflexivity |].
      inversion Hmissing as [? ? Hhead | ? ? Htail]; subst.
      * congruence.
      * exact Htail.
    + assert (step p w = (inl (KeyError "id"), w)) as Hstep.
      { unfold step, bind, lift_result, Py.getitem.
        rewrite Hv. reflexivity. }
      rewrite Hstep. reflexivity.
Qed.

End Listings.

Section DatabaseListings.

Variable rt : Py.Runtime.
Variable W : Type.
Variable ctx : ClientContext W.

(** X1.  [list_databases(query)] of the [azure.cosmos] variant queries the
    transport context when [query] is truthy and reads all databases
    otherwise (also for an empty query string); run to its end over a feed
    whose entries all have an [id], it yields one handle per entry, in the
    order of the feed, each with the entry's id and the entry as its
    properties.  An empty feed gives an empty sequence and no error. *)
Theorem cosmos_list_databases_wraps_feed :
  forall (query : pyval) (feed : list pydict) (w w' : W),
    (if Py.truthy query
     then QueryDatabases ctx query w
     else ReadDatabases ctx w) = (inr feed, w') ->
    Forall (fun p => Py.lookup "id" p <> None) feed ->
    list_of (Cosmos.list_databases rt W ctx query) w
    = (inr (map (fun p =>
                   Cosmos.DatabaseResponse_init rt (Py.get p "id" PNone) p)
              feed), w').
Proof.
  intros query feed w w' Hfeed Hids.
  unfold Cosmos.list_databases, list_of.
  destruct (Py.truthy query); unfold bind at 1; rewrite Hfeed;
    rewrite (comprehension_over_ids W _
               (fun id p => Cosmos.DatabaseResponse_init rt id p)
               feed w' Hids);
    reflexivity.
Qed.

(** X2.  One entry without an [id] anywhere in the feed, and the listing
    yields nothing: the first [next] already raises [KeyError], because the
    whole list of handles is built before the first one is handed out. *)
Theorem cosmos_list_databases_entry_without_id :
  forall (query : pyval) (feed : list pydict) (w w' : W),
    (if Py.truthy query
     then QueryDatabases ctx query w
     else ReadDatabases ctx w) = (inr feed, w') ->
    Exists (fun p => Py.lookup "id" p = None) feed ->
    next (Cosmos.list_databases rt W ctx query) w
    = (inl (KeyError "id"), GenClosed, w')
    /\ list_of (Cosmos.list_databases rt W ctx query) w
       = (inl (KeyError "id"), w').
Proof.
  intros query feed w w' Hfeed Hmissing.
  unfold Cosmos.list_databases, list_of, next.
  destruct (Py.truthy query); split; unfold bind at 1; rewrite Hfeed;
    rewrite (comprehension_missing_id W _
               (fun id p => Cosmos.DatabaseResponse_init rt id p)
               feed w' Hmissing);
    reflexivity.
Qed.

(** X3.  The two listings of the prototype variant, run to their end over
    feeds whose entries all have an [id], yield one handle per entry, in
    order, with the link [/dbs/{id}] of the entry's id. *)
Theorem prototype_database_listings_wrap_feed :
  forall (query : string) (all found : list pydict) (w w1 w2 : W),
    ReadDatabases ctx w = (inr all, w1) ->
    QueryDatabases ctx (PStr query) w = (inr found, w2) ->
    Forall (fun p => Py.lookup "id" p <> None) all ->
    Forall (fun p => Py.lookup "id" p <> None) found ->
    list_of (Prototype.list_databases rt W ctx) w
    = (inr (map (fun p => Prototype.Database_init rt (Py.get p "id" PNone))
              all), w1)
    /\ list_of (PrototypeMore.query_databases rt W ctx query) w
       = (inr (map (fun p =>
                      Prototype.Database_init rt (Py.get p "id" PNone))
                 found), w2).
Proof.
  intros query all found w w1 w2 Hall Hfound Hids1 Hids2.
  unfold Prototype.list_databases, PrototypeMore.query_databases, list_of.
  split; unfold bind at 1.
  - rewrite Hall.
    rewrite (comprehension_over_ids W _
               (fun id _ => Prototype.Database_init rt id) all w1 Hids1).
    reflexivity.
  - rewrite Hfound.
    rewrite (comprehension_over_ids W _
               (fun id _ => Prototype.Database_init rt id) found w2 Hids2).
    reflexivity.
Qed.

(** X4.  [list_containers(query)] of the [azure.cosmos] variant does the
    same whatever the query: both branches of its test read all containers
    of the database, and the query is not handed to the transport
    context. *)
Theorem cosmos_list_containers_ignores_query :
  forall (self : Cosmos.Database) (query : pyval) (feed : list pydict)
         (w w' : W),
    ReadContainers ctx (Cosmos.database_link self) w = (inr feed, w') ->
    Forall (fun p => Py.lookup "id" p <> None) feed ->
    Cosmos.list_containers rt W ctx self query
    = Cosmos.list_containers rt W ctx self PNone
    /\ list_of (Cosmos.list_containers rt W ctx self query) w
       = (inr (map (fun p =>
                      Cosmos.ContainerResponse_init rt
                        (Cosmos.ADatabase self) (Py.get p "id" PNone) p)
                 feed), w').
Proof.
  intros self query feed w w' Hfeed Hids.
  assert (Cosmos.list_containers rt W ctx self query
          = Cosmos.list_containers rt W ctx self PNone) as Hsame.
  { unfold Cosmos.list_containers. destruct (Py.truthy query); reflexivity. }
  split; [exact Hsame |].
  rewrite Hsame.
  unfold Cosmos.list_containers, list_of. cbn [Py.truthy].
  unfold bind at 1. rewrite Hfeed.
  rewrite (comprehension_over_ids W _
             (fun id p =>
                Cosmos.ContainerResponse_init rt (Cosmos.ADatabase self) id p)
             feed w' Hids).
  reflexivity.
Qed.

End DatabaseListings.

(** ** Creating a database, continued *)

Section DatabaseCreation.

Variable rt : Py.Runtime.
Variable W : Type.
Variable ctx : ClientContext W.

(** X5.  When the remote create answers, the handle returned by
    [create_database] carries the [id] found in the response, not the
    argument; a response without [id] makes [create_database] raise
    [KeyError], which the handler for [HTTPFailure] does not catch: the
    database has been created and no handle is returned.  Both variants. *)
Theorem create_database_takes_id_from_response :
  forall (id : string) (fail_if_exists : bool) (result : pydict) (w w1 : W),
    CreateDatabase ctx [("id", PStr id)] w = (inr result, w1) ->
    Cosmos.create_database rt W ctx id fail_if_exists w
    = match Py.lookup "id" result with
      | Some v => (inr (Cosmos.DatabaseResponse_init rt v result), w1)
      | None => (inl (KeyError "id"), w1)
      end
    /\ Prototype.create_database rt W ctx id fail_if_exists w
       = match Py.lookup "id" result with
         | Some v => (inr (Prototype.Database_init rt v), w1)
         | None => (inl (KeyError "id"), w1)
         end.
Proof.
  intros id fail_if_exists result w w1 Hcreate.
  unfold Cosmos.create_database, Prototype.create_database,
    try_except_HTTPFailure, bind, lift_result, Py.getitem, ret.
  rewrite Hcreate.
  destruct (Py.lookup "id" result); split; reflexivity.
Qed.

(** X6.  With [fail_if_exists=False] the prototype's [create_database]
    never raises an [HTTPFailure], whatever the transport context does:
    every such failure of the remote create, not only the conflict, ends in
    a handle built from the argument. *)
Theorem prototype_create_database_hides_failures :
  forall (id : string) (w : W),
    (forall status_code : Z,
        fst (Prototype.create_database rt W ctx id false w)
        <> inl (HTTPFailure status_code))
    /\ (forall (status_code : Z) (w1 : W),
           CreateDatabase ctx [("id", PStr id)] w
             = (inl (HTTPFailure status_code), w1) ->
           Prototype.create_database rt W ctx id false w
           = (inr (Prototype.Database_init rt (PStr id)), w1)).
Proof.
  intros id w. split.
  - intros status_code.
    unfold Prototype.create_database, Prototype.get_database,
      try_except_HTTPFailure, bind, lift_result, Py.getitem, ret.
    destruct (CreateDatabase ctx [("id", PStr id)] w) as [[e | result] w1].
    + destruct e; cbn; discriminate.
    + destruct (Py.lookup "id" result); cbn; discriminate.
  - intros status_code w1 Hcreate.
    rewrite (prototype_create_database_after_failure rt W ctx id false
               status_code w w1 Hcreate).
    reflexivity.
Qed.

End DatabaseCreation.

(** X7.  [create_database] never repeats the remote create.  In the
    [azure.cosmos] variant it makes that one call and at most one read of
    [dbs/{id}] after it; in the prototype variant it makes that one call
    and no other.  For every script of the transport context. *)
Theorem create_database_calls :
  forall (rt : Py.Runtime) (id : string) (fail_if_exists : bool)
         (w : Scripted.world),
    (Scripted.calls
       (snd (Cosmos.create_database rt Scripted.world Scripted.context id
               fail_if_exists w))
     = (Scripted.calls w
          ++ [Scripted.CallCreateDatabase [("id", PStr id)]])%list
     \/ Scripted.calls
          (snd (Cosmos.create_database rt Scripted.world Scripted.context id
                  fail_if_exists w))
        = (Scripted.calls w
             ++ [Scripted.CallCreateDatabase [("id", PStr id)];
                 Scripted.CallReadDatabase ("dbs/" ++ id)])%list)
    /\ Scripted.calls
         (snd (Prototype.create_database rt Scripted.world Scripted.context
                 id fail_if_exists w))
       = (Scripted.calls w
            ++ [Scripted.CallCreateDatabase [("id", PStr id)]])%list.
Proof.
  intros rt id fail_if_exists w.
  pose proof (answer_records_call pydict
                (Scripted.CallCreateDatabase [("id", PStr id)])
                Scripted.properties_of w) as Hcreate.
  unfold Cosmos.create_database, Prototype.create_database,
    Cosmos.get_database, Prototype.get_database,
    try_except_HTTPFailure, bind, lift_result, Py.getitem, ret, raise.
  cbn [CreateDatabase ReadDatabase Scripted.context].
  destruct (Scripted.answer (Scripted.CallCreateDatabase [("id", PStr id)])
              Scripted.properties_of w) as [[e | result] w1].
  - cbn [snd] in Hcreate.
    pose proof (answer_records_call pydict
                  (Scripted.CallReadDatabase ("dbs/" ++ id))
                  Scripted.properties_of w1) as Hread.
    rewrite Hcreate, <- app_assoc in Hread. cbn [app] in Hread.
    destruct e as [status_code | | | | |];
      try (split; [left |]; exact Hcreate).
    destruct (fail_if_exists && (status_code =? 409)%Z).
    + split; [left |]; exact Hcreate.
    + split; [right | exact Hcreate].
      destruct (Scripted.answer _ _ w1) as [[e' | properties] w2];
        exact Hread.
  - cbn [snd] in Hcreate.
    destruct (Py.lookup "id" result); split; try left; exact Hcreate.
Qed.

(** ** Containers of a database *)

(** X8.  [create_container(id, options, **kwargs)] sends the definition
    [{"id": id, **kwargs}], the id first and then the keyword arguments in
    the order given, to the link of the database, with the options as they
    are (the prototype variant sends no options).  The keyword arguments
    are distinct and none of them is [id], as the call syntax ensures.  For
    every script of the transport context. *)
Theorem create_container_definition :
  forall (rt : Py.Runtime) (id : string) (options : pyval) (kwargs : pydict)
         (self : Cosmos.Database) (self' : Prototype.Database)
         (w : Scripted.world),
    NoDup (map fst kwargs) ->
    ~ In "id" (map fst kwargs) ->
    Scripted.calls
      (snd (Cosmos.create_container rt Scripted.world Scripted.context self
              id options kwargs w))
    = (Scripted.calls w
         ++ [Scripted.CallCreateContainer (Cosmos.database_link self)
               (("id", PStr id) :: kwargs) options])%list
    /\ Scripted.calls
         (snd (Prototype.create_container rt Scripted.world Scripted.context
                 self' id kwargs w))
       = (Scripted.calls w
            ++ [Scripted.CallCreateContainer (Prototype.database_link self')
                  (("id", PStr id) :: kwargs) PNone])%list.
Proof.
  intros rt id options kwargs self self' w Hdistinct Hnoid.
  assert (Py.update [("id", PStr id)] kwargs = ("id", PStr id) :: kwargs)
    as Hdefinition.
  { rewrite update_fresh; [reflexivity |].
    cbn. constructor; assumption. }
  assert (Hlocal : forall (A : Type) (k : pyval -> A) (d : pydict)
                          (w' : Scripted.world),
             snd ((v <- lift_result (Py.getitem d "id") ;; ret (k v)) w')
             = w').
  { intros A k d w'. unfold bind, lift_result, ret.
    destruct (Py.getitem d "id"); reflexivity. }
  unfold Cosmos.create_container, Prototype.create_container.
  rewrite Hdefinition.
  split; apply bind_local_records_call; intros a w'; apply Hlocal.
Qed.

Section ContainerHandles.

Variable rt : Py.Runtime.
Variable W : Type.
Variable ctx : ClientContext W.

(** X9.  [get_container] given a container handle reads the link stored
    in that handle, and returns a new handle rebuilt from the response:
    its id is the response's [id], its link is derived from this
    database's link, whatever database the given handle came from, and it
    has no session token, whatever token the given handle had. *)
Theorem cosmos_get_container_rebuilds_handle :
  forall (self : Cosmos.Database) (container : Cosmos.Container)
         (properties : pydict) (v : pyval) (w w' : W),
    ReadContainer ctx (Cosmos.collection_link container) w
      = (inr properties, w') ->
    Py.lookup "id" properties = Some v ->
    exists handle : Cosmos.ContainerResponse,
      Cosmos.get_container rt W ctx self (Cosmos.AContainer container) w
        = (inr handle, w')
      /\ Cosmos.container_properties handle = properties
      /\ Cosmos.container_id (Cosmos.container_of handle) = v
      /\ Cosmos.collection_link (Cosmos.container_of handle)
         = Cosmos.database_link self ++ "/colls/" ++ Py.fmt rt v
      /\ Cosmos.session_token (Cosmos.container_of handle) = PNone.
Proof.
  intros self container properties v w w' Hread Hid.
  exists (Cosmos.ContainerResponse_init rt (Cosmos.ADatabase self) v
            properties).
  split; [| repeat split].
  unfold Cosmos.get_container, bind, lift_result, Py.getitem, ret.
  rewrite Hread, Hid. reflexivity.
Qed.

End ContainerHandles.

(** ** Items of a container, continued *)

Section ItemOperations.

Variable W : Type.
Variable ctx : ClientContext W.
Variable more : ClientContextMore W.

(** An item built from a document with distinct keys holds exactly that
    document. *)
Lemma Item_init_fields :
  forall (headers data : pydict),
    NoDup (map fst data) ->
    Cosmos.Item_init headers data
    = {| Cosmos.response_headers := headers; Cosmos.item_fields := data |}.
Proof.
  intros headers data Hdistinct.
  unfold Cosmos.Item_init. rewrite update_fresh; [reflexivity | exact Hdistinct].
Qed.

(** X10.  [get_item] never changes the id or the link of its container,
    whatever the outcome, and when the remote read raises, the failure
    comes out as it is and the container is left as it was, session token
    included. *)
Theorem get_item_keeps_container_identity :
  forall (self : Cosmos.Container) (id : string) (w : W),
    Cosmos.container_id
      (fst (snd (Cosmos.get_item W ctx id (self, w))))
    = Cosmos.container_id self
    /\ Cosmos.collection_link
         (fst (snd (Cosmos.get_item W ctx id (self, w))))
       = Cosmos.collection_link self
    /\ (forall (e : exn) (w' : W),
           ReadItem ctx (Cosmos.collection_link self ++ "/docs/" ++ id) w
             = (inl e, w') ->
           Cosmos.get_item W ctx id (self, w) = (inl e, (self, w'))).
Proof.
  intros self id w.
  unfold Cosmos.get_item, bind, Cosmos.read_self, Cosmos.call,
    Cosmos.read_last_response_headers, Cosmos.assign_session_token, ret.
  cbn [fst snd].
  destruct (ReadItem ctx (Cosmos.collection_link self ++ "/docs/" ++ id) w)
    as [[e | result] w1]; cbn [fst snd].
  - repeat split. intros e' w' Heq. injection Heq as -> ->. reflexivity.
  - repeat split. intros e' w' Heq. discriminate.
Qed.

(** X11.  [upsert_item] and [create_item] address the link of the
    container, and, like [get_item], return the document of the response
    unchanged (its keys being distinct, as those of a dictionary are),
    together with the headers of that response. *)
Theorem cosmos_items_hold_response_document :
  forall (self : Cosmos.Container) (id : string) (body result : pydict)
         (w w' : W),
    NoDup (map fst result) ->
    (ReadItem ctx (Cosmos.collection_link self ++ "/docs/" ++ id) w
       = (inr result, w') ->
     fst (Cosmos.get_item W ctx id (self, w))
     = inr {| Cosmos.response_headers := last_response_headers ctx w';
              Cosmos.item_fields := result |})
    /\ (UpsertItem more (Cosmos.collection_link self) body w
          = (inr result, w') ->
        CosmosMore.upsert_item W ctx more body (self, w)
        = (inr {| Cosmos.response_headers := last_response_headers ctx w';
                  Cosmos.item_fields := result |}, (self, w')))
    /\ (CreateItem more (Cosmos.collection_link self) body w
          = (inr result, w') ->
        CosmosMore.create_item W ctx more body (self, w)
        = (inr {| Cosmos.response_headers := last_response_headers ctx w';
                  Cosmos.item_fields := result |}, (self, w'))).
Proof.
  intros self id body result w w' Hdistinct.
  split; [| split]; intros Hcall.
  - unfold Cosmos.get_item, bind, Cosmos.read_self, Cosmos.call,
      Cosmos.read_last_response_headers, Cosmos.assign_session_token, ret.
    cbn [fst snd]. rewrite Hcall. cbn [fst snd].
    rewrite (Item_init_fields _ _ Hdistinct). reflexivity.
  - unfold CosmosMore.upsert_item, bind, Cosmos.read_self, Cosmos.call,
      Cosmos.read_last_response_headers, ret.
    cbn [fst snd]. rewrite Hcall. cbn [fst snd].
    rewrite (Item_init_fields _ _ Hdistinct). reflexivity.
  - unfold CosmosMore.create_item, bind, Cosmos.read_self, Cosmos.call,
      Cosmos.read_last_response_headers, ret.
    cbn [fst snd]. rewrite Hcall. cbn [fst snd].
    rewrite (Item_init_fields _ _ Hdistinct). reflexivity.
Qed.

(** X12.  An item without a [_self] field cannot be replaced or deleted:
    both operations raise [KeyError] while resolving the link, before any
    call to the transport context, in both variants. *)
Theorem item_without_self_link_is_refused :
  forall (item : Cosmos.Item) (item' : Prototype.Item)
         (self' : Prototype.Container) (body : pydict)
         (s : Cosmos.Container * W) (w : W),
    Py.lookup "_self" (Cosmos.item_fields item) = None ->
    Py.lookup "_self" (Prototype.item_fields item') = None ->
    Cosmos.replace_item W ctx (Cosmos.AnItem item) body s
      = (inl (KeyError "_self"), s)
    /\ Cosmos.delete_item W ctx (Cosmos.AnItem item) s
       = (inl (KeyError "_self"), s)
    /\ Prototype.replace_item W ctx self' (Prototype.AnItem item') body w
       = (inl (KeyError "_self"), w)
    /\ Prototype.delete_item W ctx self' (Prototype.AnItem item') w
       = (inl (KeyError "_self"), w).
Proof.
  intros item item' self' body s w Hnone Hnone'.
  unfold Cosmos.replace_item, Cosmos.delete_item, Cosmos._document_link,
    Prototype.replace_item, Prototype.delete_item,
    Prototype._document_link, Prototype.type_is_str_literal,
    Prototype.subscript, bind, lift_result, Py.getitem.
  rewrite Hnone, Hnone'. repeat split; reflexivity.
Qed.

(** X13.  Of the item operations of the [azure.cosmos] variant only
    [get_item] ever assigns to the container: replacing, deleting,
    upserting, creating and querying items leave it as it was, session
    token included, whatever the transport context answers. *)
Theorem cosmos_item_operations_leave_container :
  forall (self : Cosmos.Container) (w : W) (item : Cosmos.item_or_link)
         (body : pydict) (query : string) (options partition_key : pyval),
    fst (snd (Cosmos.replace_item W ctx item body (self, w))) = self
    /\ fst (snd (Cosmos.delete_item W ctx item (self, w))) = self
    /\ fst (snd (CosmosMore.upsert_item W ctx more body (self, w))) = self
    /\ fst (snd (CosmosMore.create_item W ctx more body (self, w))) = self
    /\ fst (snd (list_of
                   (CosmosMore.query_items W ctx more query options
                      partition_key) (self, w))) = self.
Proof.
  intros self w item body query options partition_key.
  unfold Cosmos.replace_item, Cosmos.delete_item, CosmosMore.upsert_item,
    CosmosMore.create_item, CosmosMore.query_items, list_of, bind,
    lift_result, Cosmos.read_self, Cosmos.call,
    Cosmos.read_last_response_headers, ret.
  cbn [fst snd].
  repeat split.
  - destruct (Cosmos._document_link item) as [e | link]; [reflexivity |].
    cbn [fst snd].
    destruct (ReplaceItem ctx link body w) as [[e | data] w']; reflexivity.
  - destruct (Cosmos._document_link item) as [e | link]; [reflexivity |].
    cbn [fst snd].
    destruct (DeleteItem ctx link w) as [[e | u] w']; reflexivity.
  - destruct (UpsertItem more (Cosmos.collection_link self) body w)
      as [[e | data] w']; reflexivity.
  - destruct (CreateItem more (Cosmos.collection_link self) body w)
      as [[e | data] w']; reflexivity.
  - destruct (QueryItems more (Cosmos.collection_link self) query options
                partition_key w) as [[e | items] w'].
    + destruct e; reflexivity.
    + reflexivity.
Qed.

End ItemOperations.

(** ** Updating the properties of a container, continued *)

(** The comprehension keeps no [None]. *)
Lemma drop_None_keeps_no_None :
  forall d : pydict, Forall (fun kv => snd kv <> PNone) (Py.drop_None d).
Proof.
  intros d. unfold Py.drop_None. apply Forall_forall.
  intros [k v] Hin. apply filter_In in Hin. destruct Hin as [_ Hkept].
  cbn [snd] in *. intros ->. discriminate.
Qed.

(** [int] returns an integer when it returns. *)
Lemma int_returns_integer :
  forall (rt : Py.Runtime) (v ttl : pyval),
    Py.int rt v = inr ttl -> exists n : Z, ttl = PInt n.
Proof.
  intros rt v ttl Hint. destruct v; cbn in Hint; try discriminate.
  - injection Hint as <-. eexists. reflexivity.
  - injection Hint as <-. eexists. reflexivity.
  - destruct (Py.int_of_str rt s); [| discriminate].
    injection Hint as <-. eexists. reflexivity.
Qed.

Section ContainerUpdates.

Variable rt : Py.Runtime.
Variable W : Type.
Variable ctx : ClientContext W.

(** X14.  [set_container_properties] of the [azure.cosmos] variant either
    raises what [int(default_ttl)] raises and sends nothing, or sends one
    update, to [{database_link}/colls/{id}] with the id of the container
    given (also when a handle with another stored link is given); the
    payload of that update holds no [None] and always holds an integer
    [defaultTtl]. *)
Theorem cosmos_set_container_properties_outcomes :
  forall (self : Cosmos.Database) (container : Cosmos.container_or_id)
         (partition_key indexing_policy default_ttl
            conflict_resolution_policy : pyval) (w : W),
    let id := match container with
              | Cosmos.AContainer c => Cosmos.container_id c
              | Cosmos.AContainerId s => PStr s
              end in
    match Py.int rt default_ttl with
    | inl e =>
        Cosmos.set_container_properties rt W ctx self container
          partition_key indexing_policy default_ttl
          conflict_resolution_policy w = (inl e, w)
    | inr _ =>
        exists payload : pydict,
          Cosmos.set_container_properties rt W ctx self container
            partition_key indexing_policy default_ttl
            conflict_resolution_policy w
          = (ReplaceContainer ctx
               (Cosmos.database_link self ++ "/colls/" ++ Py.fmt rt id)
               payload ;;; ret tt) w
          /\ Forall (fun kv => snd kv <> PNone) payload
          /\ (exists n : Z, Py.lookup "defaultTtl" payload = Some (PInt n))
    end.
Proof.
  intros self container partition_key indexing_policy default_ttl
    conflict_resolution_policy w id.
  unfold Cosmos.set_container_properties. fold id.
  destruct (Py.int rt default_ttl) as [e | ttl] eqn:Hint.
  - reflexivity.
  - destruct (int_returns_integer rt _ _ Hint) as [n ->].
    eexists. split; [reflexivity |]. split.
    + apply drop_None_keeps_no_None.
    + exists n.
      exact (proj1 (proj2 (proj2 (proj2
               (payload_fields id partition_key indexing_policy (PInt n)
                  conflict_resolution_policy))))).
Qed.

(** X15.  [set_container_properties] of the prototype variant, when
    [int(default_ttl)] returns, sends one update to the link stored in the
    container; the [id] of the payload is the [id] argument when that is
    truthy and the container's own id otherwise (for [None] and for the
    empty string alike); the payload holds no [None] and holds an integer
    [defaultTtl]. *)
Theorem prototype_set_container_properties_outcomes :
  forall (self : Prototype.Container)
         (id partition_key indexing_policy default_ttl
            conflict_resolution_policy ttl : pyval) (w : W),
    Py.int rt default_ttl = inr ttl ->
    exists payload : pydict,
      Prototype.set_container_properties rt W ctx self id partition_key
        indexing_policy default_ttl conflict_resolution_policy w
      = (ReplaceContainer ctx (Prototype.collection_link self) payload ;;;
         ret tt) w
      /\ Py.lookup "id" payload
         = (let sent :=
              if Py.truthy id then id else Prototype.container_id self in
            if Py.is_not_None sent then Some sent else None)
      /\ Forall (fun kv => snd kv <> PNone) payload
      /\ (exists n : Z, Py.lookup "defaultTtl" payload = Some (PInt n)).
Proof.
  intros self id partition_key indexing_policy default_ttl
    conflict_resolution_policy ttl w Hint.
  unfold Prototype.set_container_properties.
  destruct (int_returns_integer rt _ _ Hint) as [n ->].
  rewrite Hint.
  eexists. split; [reflexivity |].
  pose proof (payload_fields (Py.or_ id (Prototype.container_id self))
                partition_key indexing_policy (PInt n)
                conflict_resolution_policy) as [Hid [_ [_ [Httl _]]]].
  split; [exact Hid |]. split.
  - apply drop_None_keeps_no_None.
  - exists n. exact Httl.
Qed.

(** X16.  In the prototype's [get_container] only the end of the listing
    becomes a [ValueError]: an [HTTPFailure] of the remote listing comes
    out unchanged. *)
Theorem prototype_get_container_propagates_failure :
  forall (self : Prototype.Database) (id : string) (status_code : Z)
         (w w' : W),
    ReadContainers ctx (Prototype.database_link self) w
      = (inl (HTTPFailure status_code), w') ->
    Prototype.get_container rt W ctx self id w
    = (inl (HTTPFailure status_code), w').
Proof.
  intros self id status_code w w' Hfeed.
  unfold Prototype.get_container, try_except_StopIteration, next,
    Prototype.list_containers, bind.
  rewrite Hfeed. reflexivity.
Qed.

End ContainerUpdates.

(** ** Users of a database *)

Section Users.

Variable W : Type.
Variable more : ClientContextMore W.

(** X17.  [list_users] never yields a user: with an empty feed it yields
    nothing, and with any user in the feed it raises [TypeError], because
    [User] takes no argument. *)
Theorem list_users_yields_no_user :
  forall (self : Cosmos.Database) (query : pyval) (feed : list pydict)
         (w w' : W),
    ReadUsers more query w = (inr feed, w') ->
    list_of (CosmosMore.list_users W more self query) w
    = match feed with
      | [] => (inr [], w')
      | _ :: _ => (inl TypeError, w')
      end.
Proof.
  intros self query feed w w' Hfeed.
  unfold CosmosMore.list_users, list_of, bind at 1.
  rewrite Hfeed. destruct feed; reflexivity.
Qed.

End Users.

(** Every remaining transport operation appends exactly its own call. *)
Lemma more_answer_records_call :
  forall (A : Type) (c : ScriptedMore.call)
         (decode : Scripted.reply -> option A) (w : ScriptedMore.world),
    ScriptedMore.more_calls (snd (ScriptedMore.answer c decode w))
    = (ScriptedMore.more_calls w ++ [c])%list.
Proof.
  intros A c decode w. unfold ScriptedMore.answer.
  destruct (Scripted.script (ScriptedMore.base w)) as [| [r h] rest];
    [reflexivity |].
  destruct r; try reflexivity; destruct (decode _); reflexivity.
Qed.

(** X18.  [delete_user] addresses the same link whatever user it is
    given, the one spelled with the text of the builtin function [id], so
    never the link under which [get_user] reads the user of a given id
    (unless that id is this very text).  For every script of the transport
    context. *)
Theorem delete_user_ignores_its_argument :
  forall (self : Cosmos.Database) (user : CosmosMore.user_argument)
         (id : string) (w : ScriptedMore.world),
    ScriptedMore.more_calls
      (snd (CosmosMore.delete_user ScriptedMore.world ScriptedMore.more self
              user w))
    = (ScriptedMore.more_calls w
         ++ [ScriptedMore.CallDeleteUser
               (PStr (Cosmos.database_link self
                        ++ "/users/<built-in function id>"))])%list
    /\ ScriptedMore.more_calls
         (snd (CosmosMore.get_user ScriptedMore.world ScriptedMore.more self
                 (CosmosMore.AUserId id) w))
       = (ScriptedMore.more_calls w
            ++ [ScriptedMore.CallReadUser
                  (PStr (Cosmos.database_link self ++ "/users/" ++ id))])%list.
Proof.
  intros self user id w. split; apply more_answer_records_call.
Qed.

(** ** The database management sample *)

Section SampleOverAnyClient.

Variable S : Type.
Variable Database : Type.
Variable client : Sample.Client S Database.

(** X19.  Of the failures of its client the sample's [create_database]
    swallows exactly the [HTTPFailure] with status 409, and its
    [delete_database] exactly the one with status 404, each reporting it on
    the output; every other failure leaves the method as it is, after the
    heading has been printed. *)
Theorem sample_swallows_conflict_and_not_found :
  forall (id : string) (out : list string) (s s1 s2 : S) (e1 e2 : exn),
    Sample.client_create_database S Database client id true s = (inl e1, s1) ->
    Sample.client_delete_database S Database client id s = (inl e2, s2) ->
    Sample.create_database S Database client id (out, s)
    = (if match e1 with
          | HTTPFailure status_code => (status_code =? 409)%Z
          | _ => false
          end
       then (inr tt,
             ((out ++ ["2. Create database";
                       ("A database with id " ++ id ++ " already exists")
                         %string])%list, s1))
       else (inl e1, ((out ++ ["2. Create database"])%list, s1)))
    /\ Sample.delete_database S Database client id (out, s)
       = (if match e2 with
             | HTTPFailure status_code => (status_code =? 404)%Z
             | _ => false
             end
          then (inr tt,
                ((out ++ ["5. Delete database";
                          ("A database with id " ++ id ++ " does not exist")
                            %string])%list, s2))
          else (inl e2, ((out ++ ["5. Delete database"])%list, s2))).
Proof.
  intros id out s s1 s2 e1 e2 Hcreate Hdelete.
  unfold Sample.create_database, Sample.delete_database, bind,
    try_except_HTTPFailure, Sample.print, Sample.on_client, raise.
  cbn [fst snd]. rewrite Hcreate, Hdelete.
  split.
  - destruct e1 as [status_code | | | | |]; try reflexivity.
    destruct (status_code =? 409)%Z; [| reflexivity].
    cbn [fst snd]. rewrite <- app_assoc. reflexivity.
  - destruct e2 as [status_code | | | | |]; try reflexivity.
    destruct (status_code =? 404)%Z; [| reflexivity].
    cbn [fst snd]. rewrite <- app_assoc. reflexivity.
Qed.

(** Printing a line per element. *)
Lemma print_each :
  forall (A : Type) (text : A -> string) (l : list A) (out : list string)
         (s : S),
    mapM (fun a => Sample.print S (text a)) l (out, s)
    = (inr (map (fun _ => tt) l), ((out ++ map text l)%list, s)).
Proof.
  intros A text l. induction l as [| a rest IH]; intros out s.
  - cbn. rewrite app_nil_r. reflexivity.
  - cbn [mapM map]. unfold bind at 1.
    change (Sample.print S (text a) (out, s))
      with (@inr exn unit tt, ((out ++ [text a])%list, s)).
    cbv beta iota. unfold bind at 1. rewrite IH.
    unfold ret. rewrite <- app_assoc. reflexivity.
Qed.

End SampleOverAnyClient.

Section SampleOverCosmosClient.

Variable rt : Py.Runtime.
Variable W : Type.
Variable ctx : ClientContext W.

(** X20.  The sample's [create_database] over the client of
    [azure/cosmos/client.py]: when the remote create fails with status 409
    it reports that the database already exists; when the remote create
    fails with any other status and the database can then be read, it
    reports the database as created, and raises nothing. *)
Theorem sample_create_database_over_cosmos :
  forall (id : string) (out : list string) (status_code : Z)
         (properties : pydict) (w w1 w2 : W),
    CreateDatabase ctx [("id", PStr id)] w
      = (inl (HTTPFailure status_code), w1) ->
    ReadDatabase ctx ("dbs/" ++ id) w1 = (inr properties, w2) ->
    Sample.create_database W Cosmos.DatabaseResponse
      (Sample.cosmos_client rt W ctx) id (out, w)
    = (if (status_code =? 409)%Z
       then (inr tt,
             ((out ++ ["2. Create database";
                       ("A database with id " ++ id ++ " already exists")
                         %string])%list, w1))
       else (inr tt,
             ((out ++ ["2. Create database";
                       ("A database with id " ++ id ++ " created")
                         %string])%list, w2))).
Proof.
  intros id out status_code properties w w1 w2 Hcreate Hread.
  unfold Sample.create_database, bind, try_except_HTTPFailure,
    Sample.print, Sample.on_client, raise.
  cbn [fst snd Sample.client_create_database Sample.cosmos_client].
  rewrite (cosmos_create_database_after_failure rt W ctx id true
             status_code w w1 Hcreate).
  cbn [andb].
  destruct (status_code =? 409)%Z eqn:Hcode.
  - cbv beta iota zeta delta [fst snd]. rewrite Hcode.
    rewrite <- app_assoc. reflexivity.
  - rewrite (cosmos_get_database_returns rt W ctx id properties w1 w2 Hread).
    cbv beta iota zeta delta [fst snd].
    rewrite <- app_assoc. reflexivity.
Qed.

(** X21.  The sample's [find_database] over the same client hands its
    query to the transport context and reports the database as found
    exactly when the feed that comes back is not empty; its
    [list_databases] reads all databases and prints their ids, one a line,
    in the order of the feed. *)
Theorem sample_listings_over_cosmos :
  forall (id : string) (out : list string) (found all : list pydict)
         (w w1 w2 : W),
    QueryDatabases ctx
      (PDict [("query", PStr "SELECT * FROM r WHERE r.id=@id");
              ("parameters",
               PList [PDict [("name", PStr "@id"); ("value", PStr id)]])])
      w = (inr found, w1) ->
    ReadDatabases ctx w = (inr all, w2) ->
    Forall (fun p => Py.lookup "id" p <> None) found ->
    Forall (fun p => Py.lookup "id" p <> None) all ->
    Sample.find_database W Cosmos.DatabaseResponse
      (Sample.cosmos_client rt W ctx) id (out, w)
    = (inr tt,
       ((out ++ ["1. Query for database";
                 match found with
                 | [] => ("Database with id " ++ id ++ " was not found")
                           %string
                 | _ :: _ => ("Database with id " ++ id ++ " was found")
                               %string
                 end])%list, w1))
    /\ Sample.list_databases rt W Cosmos.DatabaseResponse
         (fun d => Cosmos.database_id (Cosmos.database_of d))
         (Sample.cosmos_client rt W ctx) (out, w)
       = (inr tt,
          ((out ++ "4. Listing all databases on an account"
                :: map (fun p => Py.fmt rt (Py.get p "id" PNone)) all)%list,
           w2)).
Proof.
  intros id out found all w w1 w2 Hfound Hall Hids1 Hids2.
  split.
  - unfold Sample.find_database, bind, Sample.print, Sample.on_client.
    cbn [fst snd Sample.client_list_databases Sample.cosmos_client].
    rewrite (cosmos_list_databases_wraps_feed rt W ctx _ found w w1);
      [| exact Hfound | exact Hids1].
    destruct found; cbn [map fst snd]; rewrite <- app_assoc; reflexivity.
  - unfold Sample.list_databases, bind at 1 2, Sample.on_client.
    unfold Sample.print at 1.
    cbn [fst snd Sample.client_list_databases Sample.cosmos_client].
    rewrite (cosmos_list_databases_wraps_feed rt W ctx PNone all w w2);
      [| exact Hall | exact Hids2].
    unfold bind at 1.
    rewrite (print_each W Cosmos.DatabaseResponse
               (fun d => Py.fmt rt
                           (Cosmos.database_id (Cosmos.database_of d)))).
    unfold ret. rewrite map_map.
    cbn [Cosmos.database_id Cosmos.database_of
           Cosmos.DatabaseResponse_init Cosmos.Database_init].
    rewrite <- app_assoc. reflexivity.
Qed.

End SampleOverCosmosClient.

(** ** Items of a container, prototype variant *)

Section PrototypeItems.

Variable W : Type.
Variable ctx : ClientContext W.
Variable more : ClientContextMore W.

(** X22.  In the prototype variant every item that comes back from
    [get_item], [upsert_item], [create_item] or, run to its end,
    [list_items] refers back to the container it was obtained through and
    holds the document of the response unchanged (its keys being
    distinct); [list_items] keeps the order of the feed and hands an empty
    dictionary to the transport context when its options are [None], empty
    or otherwise falsy. *)
Theorem prototype_items_refer_to_container :
  forall (self : Prototype.Container) (id : string) (options : pyval)
         (body result : pydict) (feed : list pydict) (w w' v v' : W),
    NoDup (map fst result) ->
    Forall (fun document => NoDup (map fst document)) feed ->
    ReadItems ctx (Prototype.collection_link self)
      (if Py.truthy options then options else PDict []) v = (inr feed, v')
    ->
    (ReadItem ctx (Prototype.collection_link self ++ "/docs/" ++ id) w
       = (inr result, w') ->
     Prototype.get_item W ctx self id w
     = (inr {| Prototype.item_container := self;
               Prototype.item_fields := result |}, w'))
    /\ (UpsertItem more (Prototype.collection_link self) body w
          = (inr result, w') ->
        PrototypeMore.upsert_item W more self body w
        = (inr {| Prototype.item_container := self;
                  Prototype.item_fields := result |}, w'))
    /\ (CreateItem more (Prototype.collection_link self) body w
          = (inr result, w') ->
        PrototypeMore.create_item W more self body w
        = (inr {| Prototype.item_container := self;
                  Prototype.item_fields := result |}, w'))
    /\ list_of (Prototype.list_items W ctx self options) v
       = (inr (map (fun document =>
                      {| Prototype.item_container := self;
                         Prototype.item_fields := document |}) feed), v').
Proof.
  intros self id options body result feed w w' v v' Hdistinct Hfeed Hitems.
  assert (Hinit : forall data : pydict,
             NoDup (map fst data) ->
             Prototype.Item_init self data
             = {| Prototype.item_container := self;
                  Prototype.item_fields := data |}).
  { intros data Hdata. unfold Prototype.Item_init.
    rewrite update_fresh; [reflexivity | exact Hdata]. }
  repeat split.
  - intros Hcall. unfold Prototype.get_item, bind, ret.
    rewrite Hcall, (Hinit _ Hdistinct). reflexivity.
  - intros Hcall. unfold PrototypeMore.upsert_item, bind, ret.
    rewrite Hcall, (Hinit _ Hdistinct). reflexivity.
  - intros Hcall. unfold PrototypeMore.create_item, bind, ret.
    rewrite Hcall, (Hinit _ Hdistinct). reflexivity.
  - unfold Prototype.list_items, list_of, Py.or_, bind, ret.
    rewrite Hitems. f_equal. f_equal.
    apply map_ext_in. intros document Hin.
    apply Hinit. rewrite Forall_forall in Hfeed. apply Hfeed. exact Hin.
Qed.

End PrototypeItems.

(** ** The further properties at work on example scripts *)

(** Every entry of a concrete feed has an [id]. *)
Ltac every_entry_has_id :=
  repeat (apply Forall_cons; [cbn; discriminate |]); apply Forall_nil.

Lemma cosmos_list_databases_wraps_feed_witness :
  list_of (Cosmos.list_databases Scripted.runtime Scripted.world
             Scripted.context PNone) MoreExamples.listing_of_two
  = (inr (map (fun p =>
                 Cosmos.DatabaseResponse_init Scripted.runtime
                   (Py.get p "id" PNone) p) MoreExamples.two_entries),
     {| Scripted.script := [];
        Scripted.headers := [];
        Scripted.calls := [Scripted.CallReadDatabases] |}).
Proof.
  apply (cosmos_list_databases_wraps_feed Scripted.runtime Scripted.world
           Scripted.context PNone MoreExamples.two_entries
           MoreExamples.listing_of_two).
  - reflexivity.
  - every_entry_has_id.
Defined.

Lemma cosmos_list_databases_entry_without_id_witness :
  next (Cosmos.list_databases Scripted.runtime Scripted.world
          Scripted.context PNone) MoreExamples.listing_with_nameless_entry
  = (inl (KeyError "id"), GenClosed,
     {| Scripted.script := [];
        Scripted.headers := [];
        Scripted.calls := [Scripted.CallReadDatabases] |}).
Proof.
  apply (cosmos_list_databases_entry_without_id Scripted.runtime
           Scripted.world Scripted.context PNone
           MoreExamples.nameless_entries
           MoreExamples.listing_with_nameless_entry).
  - reflexivity.
  - apply Exists_cons_tl. apply Exists_cons_hd. reflexivity.
Defined.

Lemma prototype_database_listings_wrap_feed_witness :
  list_of (PrototypeMore.query_databases Scripted.runtime Scripted.world
             Scripted.context "SELECT * FROM r")
    MoreExamples.listing_of_two
  = (inr (map (fun p =>
                 Prototype.Database_init Scripted.runtime
                   (Py.get p "id" PNone)) MoreExamples.two_entries),
     {| Scripted.script := [];
        Scripted.headers := [];
        Scripted.calls :=
          [Scripted.CallQueryDatabases (PStr "SELECT * FROM r")] |}).
Proof.
  apply (prototype_database_listings_wrap_feed Scripted.runtime
           Scripted.world Scripted.context "SELECT * FROM r"
           MoreExamples.two_entries MoreExamples.two_entries
           MoreExamples.listing_of_two _ _ eq_refl eq_refl).
  - every_entry_has_id.
  - every_entry_has_id.
Defined.

Lemma cosmos_list_containers_ignores_query_witness :
  list_of (Cosmos.list_containers Scripted.runtime Scripted.world
             Scripted.context
             (Cosmos.Database_init Scripted.runtime (PStr "d"))
             (PStr "SELECT * FROM r WHERE r.id = 'b'"))
    MoreExamples.listing_of_two
  = (inr (map (fun p =>
                 Cosmos.ContainerResponse_init Scripted.runtime
                   (Cosmos.ADatabase
                      (Cosmos.Database_init Scripted.runtime (PStr "d")))
                   (Py.get p "id" PNone) p) MoreExamples.two_entries),
     {| Scripted.script := [];
        Scripted.headers := [];
        Scripted.calls := [Scripted.CallReadContainers "/dbs/d"] |}).
Proof.
  apply (cosmos_list_containers_ignores_query Scripted.runtime
           Scripted.world Scripted.context
           (Cosmos.Database_init Scripted.runtime (PStr "d"))
           (PStr "SELECT * FROM r WHERE r.id = 'b'")
           MoreExamples.two_entries MoreExamples.listing_of_two).
  - reflexivity.
  - every_entry_has_id.
Defined.

Lemma create_database_takes_id_from_response_witness :
  Cosmos.create_database Scripted.runtime Scripted.world Scripted.context
    "db" false MoreExamples.answered_as_DB
  = (inr (Cosmos.DatabaseResponse_init Scripted.runtime (PStr "DB")
            [("id", PStr "DB")]),
     {| Scripted.script := [];
        Scripted.headers := [];
        Scripted.calls := [Scripted.CallCreateDatabase [("id", PStr "db")]]
     |}).
Proof.
  exact (proj1
           (create_database_takes_id_from_response Scripted.runtime
              Scripted.world Scripted.context "db" false
              [("id", PStr "DB")] MoreExamples.answered_as_DB _ eq_refl)).
Defined.

Lemma prototype_create_database_hides_failures_witness :
  Prototype.create_database Scripted.runtime Scripted.world Scripted.context
    "db" false MoreExamples.unavailable
  = (inr (Prototype.Database_init Scripted.runtime (PStr "db")),
     {| Scripted.script := [];
        Scripted.headers := [];
        Scripted.calls := [Scripted.CallCreateDatabase [("id", PStr "db")]]
     |}).
Proof.
  exact (proj2
           (prototype_create_database_hides_failures Scripted.runtime
              Scripted.world Scripted.context "db" MoreExamples.unavailable)
           503%Z _ eq_refl).
Defined.

Lemma create_container_definition_witness :
  Scripted.calls
    (snd (Cosmos.create_container Scripted.runtime Scripted.world
            Scripted.context
            (Cosmos.Database_init Scripted.runtime (PStr "d")) "c" PNone
            [("partitionKey", PStr "/pk"); ("defaultTtl", PInt 60)]
            MoreExamples.container_c2))
  = [Scripted.CallCreateContainer "/dbs/d"
       [("id", PStr "c"); ("partitionKey", PStr "/pk");
        ("defaultTtl", PInt 60)] PNone].
Proof.
  refine (proj1
            (create_container_definition Scripted.runtime "c" PNone
               [("partitionKey", PStr "/pk"); ("defaultTtl", PInt 60)]
               (Cosmos.Database_init Scripted.runtime (PStr "d"))
               (Prototype.Database_init Scripted.runtime (PStr "d"))
               MoreExamples.container_c2 _ _)).
  - repeat constructor; cbn; intuition discriminate.
  - cbn. intuition discriminate.
Defined.

Lemma cosmos_get_container_rebuilds_handle_witness :
  exists handle : Cosmos.ContainerResponse,
    Cosmos.get_container Scripted.runtime Scripted.world Scripted.context
      (Cosmos.Database_init Scripted.runtime (PStr "other"))
      (Cosmos.AContainer Examples.container_with_token)
      MoreExamples.container_c2
    = (inr handle,
       {| Scripted.script := [];
          Scripted.headers := [];
          Scripted.calls := [Scripted.CallReadContainer "/dbs/d/colls/c"]
       |})
    /\ Cosmos.container_properties handle = [("id", PStr "c2")]
    /\ Cosmos.container_id (Cosmos.container_of handle) = PStr "c2"
    /\ Cosmos.collection_link (Cosmos.container_of handle)
       = "/dbs/other/colls/c2"
    /\ Cosmos.session_token (Cosmos.container_of handle) = PNone.
Proof.
  exact (cosmos_get_container_rebuilds_handle Scripted.runtime
           Scripted.world Scripted.context
           (Cosmos.Database_init Scripted.runtime (PStr "other"))
           Examples.container_with_token [("id", PStr "c2")] (PStr "c2")
           MoreExamples.container_c2 _ eq_refl eq_refl).
Defined.

Lemma get_item_keeps_container_identity_witness :
  Cosmos.get_item Scripted.world Scripted.context "x"
    (Examples.container_with_token, MoreExamples.unavailable)
  = (inl (HTTPFailure 503),
     (Examples.container_with_token,
      {| Scripted.script := [];
         Scripted.headers := [];
         Scripted.calls := [Scripted.CallReadItem "/dbs/d/colls/c/docs/x"]
      |})).
Proof.
  exact (proj2 (proj2
           (get_item_keeps_container_identity Scripted.world
              Scripted.context Examples.container_with_token "x"
              MoreExamples.unavailable))
           (HTTPFailure 503) _ eq_refl).
Defined.

Lemma cosmos_items_hold_response_document_witness :
  CosmosMore.upsert_item ScriptedMore.world ScriptedMore.context
    ScriptedMore.more [("id", PStr "x")]
    (Examples.container_with_token, MoreExamples.answered_with_document)
  = (inr {| Cosmos.response_headers := [("etag", PStr "e1")];
            Cosmos.item_fields := MoreExamples.document |},
     (Examples.container_with_token,
      {| ScriptedMore.base :=
           {| Scripted.script := [];
              Scripted.headers := [("etag", PStr "e1")];
              Scripted.calls := [] |};
         ScriptedMore.more_calls :=
           [ScriptedMore.CallUpsertItem "/dbs/d/colls/c"
              [("id", PStr "x")]] |})).
Proof.
  refine (proj1 (proj2
            (cosmos_items_hold_response_document ScriptedMore.world
               ScriptedMore.context ScriptedMore.more
               Examples.container_with_token "x" [("id", PStr "x")]
               MoreExamples.document MoreExamples.answered_with_document
               _ _)) eq_refl).
  repeat constructor; cbn; intuition discriminate.
Defined.

Lemma item_without_self_link_is_refused_witness :
  Cosmos.delete_item Scripted.world Scripted.context
    (Cosmos.AnItem MoreExamples.cosmos_item_without_self)
    (Examples.container_with_token, Examples.read_without_token)
  = (inl (KeyError "_self"),
     (Examples.container_with_token, Examples.read_without_token))
  /\ Prototype.delete_item Scripted.world Scripted.context
       MoreExamples.prototype_container
       (Prototype.AnItem MoreExamples.prototype_item_without_self)
       Examples.read_without_token
     = (inl (KeyError "_self"), Examples.read_without_token).
Proof.
  pose proof
    (item_without_self_link_is_refused Scripted.world Scripted.context
       MoreExamples.cosmos_item_without_self
       MoreExamples.prototype_item_without_self
       MoreExamples.prototype_container []
       (Examples.container_with_token, Examples.read_without_token)
       Examples.read_without_token eq_refl eq_refl)
    as [_ [Hcosmos [_ Hprototype]]].
  split; [exact Hcosmos | exact Hprototype].
Defined.

Lemma prototype_set_container_properties_outcomes_witness :
  exists payload : pydict,
    Prototype.set_container_properties Scripted.runtime Scripted.world
      Scripted.context MoreExamples.prototype_container (PStr "") PNone
      PNone (PInt 3600) PNone MoreExamples.container_c2
    = (ReplaceContainer Scripted.context "/dbs/d/colls/c" payload ;;;
       ret tt) MoreExamples.container_c2
    /\ Py.lookup "id" payload = Some (PStr "c")
    /\ Forall (fun kv => snd kv <> PNone) payload
    /\ (exists n : Z, Py.lookup "defaultTtl" payload = Some (PInt n)).
Proof.
  exact (prototype_set_container_properties_outcomes Scripted.runtime
           Scripted.world Scripted.context MoreExamples.prototype_container
           (PStr "") PNone PNone (PInt 3600) PNone (PInt 3600)
           MoreExamples.container_c2 eq_refl).
Defined.

Lemma prototype_get_container_propagates_failure_witness :
  Prototype.get_container Scripted.runtime Scripted.world Scripted.context
    (Prototype.Database_init Scripted.runtime (PStr "d")) "c"
    MoreExamples.unavailable
  = (inl (HTTPFailure 503),
     {| Scripted.script := [];
        Scripted.headers := [];
        Scripted.calls := [Scripted.CallReadContainers "/dbs/d"] |}).
Proof.
  exact (prototype_get_container_propagates_failure Scripted.runtime
           Scripted.world Scripted.context
           (Prototype.Database_init Scripted.runtime (PStr "d")) "c" 503%Z
           MoreExamples.unavailable _ eq_refl).
Defined.

Lemma list_users_yields_no_user_witness :
  fst (list_of
         (CosmosMore.list_users ScriptedMore.world ScriptedMore.more
            (Cosmos.Database_init Scripted.runtime (PStr "d")) PNone)
         MoreExamples.one_user)
  = inl TypeError.
Proof.
  rewrite (list_users_yields_no_user ScriptedMore.world ScriptedMore.more
             (Cosmos.Database_init Scripted.runtime (PStr "d")) PNone
             [[("id", PStr "u")]] MoreExamples.one_user _ eq_refl).
  reflexivity.
Defined.

Lemma sample_swallows_conflict_and_not_found_witness :
  Sample.create_database unit unit MoreExamples.refusing_client "db"
    ([], tt)
  = (inr tt,
     (["2. Create database"; "A database with id db already exists"], tt))
  /\ Sample.delete_database unit unit MoreExamples.refusing_client "db"
       ([], tt)
     = (inr tt,
        (["5. Delete database"; "A database with id db does not exist"],
         tt)).
Proof.
  exact (sample_swallows_conflict_and_not_found unit unit
           MoreExamples.refusing_client "db" [] tt tt tt (HTTPFailure 409)
           (HTTPFailure 404) eq_refl eq_refl).
Defined.

Lemma sample_create_database_over_cosmos_witness :
  Sample.create_database Scripted.world Cosmos.DatabaseResponse
    (Sample.cosmos_client Scripted.runtime Scripted.world Scripted.context)
    "db" ([], MoreExamples.unavailable_then_found)
  = (inr tt,
     (["2. Create database"; "A database with id db created"],
      {| Scripted.script := [];
         Scripted.headers := [];
         Scripted.calls :=
           [Scripted.CallCreateDatabase [("id", PStr "db")];
            Scripted.CallReadDatabase "dbs/db"] |})).
Proof.
  exact (sample_create_database_over_cosmos Scripted.runtime Scripted.world
           Scripted.context "db" [] 503%Z Examples.db_properties
           MoreExamples.unavailable_then_found _ _ eq_refl eq_refl).
Defined.

Lemma sample_listings_over_cosmos_witness :
  Sample.find_database Scripted.world Cosmos.DatabaseResponse
    (Sample.cosmos_client Scripted.runtime Scripted.world Scripted.context)
    "a" ([], MoreExamples.listing_of_two)
  = (inr tt,
     (["1. Query for database"; "Database with id a was found"],
      {| Scripted.script := [];
         Scripted.headers := [];
         Scripted.calls :=
           [Scripted.CallQueryDatabases
              (PDict
                 [("query", PStr "SELECT * FROM r WHERE r.id=@id");
                  ("parameters",
                   PList [PDict [("name", PStr "@id");
                                 ("value", PStr "a")]])])] |}))
  /\ Sample.list_databases Scripted.runtime Scripted.world
       Cosmos.DatabaseResponse
       (fun d => Cosmos.database_id (Cosmos.database_of d))
       (Sample.cosmos_client Scripted.runtime Scripted.world
          Scripted.context) ([], MoreExamples.listing_of_two)
     = (inr tt,
        (["4. Listing all databases on an account"; "a"; "b"],
         {| Scripted.script := [];
            Scripted.headers := [];
            Scripted.calls := [Scripted.CallReadDatabases] |})).
Proof.
  refine (sample_listings_over_cosmos Scripted.runtime Scripted.world
            Scripted.context "a" [] MoreExamples.two_entries
            MoreExamples.two_entries MoreExamples.listing_of_two _ _
            eq_refl eq_refl _ _);
    every_entry_has_id.
Defined.

Lemma prototype_items_refer_to_container_witness :
  PrototypeMore.upsert_item ScriptedMore.world ScriptedMore.more
    MoreExamples.prototype_container [("id", PStr "x")]
    MoreExamples.answered_with_document
  = (inr {| Prototype.item_container := MoreExamples.prototype_container;
            Prototype.item_fields := MoreExamples.document |},
     {| ScriptedMore.base :=
          {| Scripted.script := [];
             Scripted.headers := [("etag", PStr "e1")];
             Scripted.calls := [] |};
        ScriptedMore.more_calls :=
          [ScriptedMore.CallUpsertItem "/dbs/d/colls/c"
             [("id", PStr "x")]] |})
  /\ list_of (Prototype.list_items ScriptedMore.world ScriptedMore.context
               MoreExamples.prototype_container PNone)
       (ScriptedMore.start
          [(Scripted.Yields [MoreExamples.document], [])])
     = (inr [ {| Prototype.item_container :=
                   MoreExamples.prototype_container;
                 Prototype.item_fields := MoreExamples.document |} ],
        {| ScriptedMore.base :=
             {| Scripted.script := [];
                Scripted.headers := [];
                Scripted.calls :=
                  [Scripted.CallReadItems "/dbs/d/colls/c" (PDict [])] |};
           ScriptedMore.more_calls := [] |}).
Proof.
  assert (NoDup (map fst MoreExamples.document)) as Hdistinct.
  { repeat constructor; cbn; intuition discriminate. }
  pose proof
    (prototype_items_refer_to_container ScriptedMore.world
       ScriptedMore.context ScriptedMore.more
       MoreExamples.prototype_container "x" PNone [("id", PStr "x")]
       MoreExamples.document [MoreExamples.document]
       MoreExamples.answered_with_document
       {| ScriptedMore.base :=
            {| Scripted.script := [];
               Scripted.headers := [("etag", PStr "e1")];
               Scripted.calls := [] |};
          ScriptedMore.more_calls :=
            [ScriptedMore.CallUpsertItem "/dbs/d/colls/c"
               [("id", PStr "x")]] |}
       (ScriptedMore.start [(Scripted.Yields [MoreExamples.document], [])])
       _ Hdistinct (Forall_cons _ Hdistinct (Forall_nil _)) eq_refl)
    as [_ [Hupsert [_ Hlist]]].
  split; [exact (Hupsert eq_refl) | exact Hlist].
Defined.
